(** * study-assistant-lab: the wait loops and the notes validator

    A shallow embedding of [scripts/01_qna_assistant.py] and
    [scripts/02_generate_notes.py].

    - Python effects (calls of the hosted API, [time.sleep], [print],
      exceptions) are threaded through a state-and-exception monad whose
      state is the chronological list of effects performed so far.
    - The hosted service is an oracle: the answers of successive
      [runs.retrieve] calls, the message list of the thread and the file
      catalogue are section variables.
    - In the two polling functions, API calls other than [files.retrieve],
      which has a handler of its own, are taken to return; an exception
      raised after them ([IndexError], [AttributeError]) reaches the
      [except Exception] of the function. The listing and completion calls
      of the rest of the scripts may fail.
    - [json.loads] and pydantic are libraries, not code of the repository:
      the parser is a section variable, pydantic (v2, as the scripts call
      [model_dump]) is modelled for the two declared models only.
    - [max_attempts] is a local constant (30) of both functions; the
      functions are defined for any bound ([ask_question_at],
      [generate_notes_with_assistant_at]) and then taken at 30. *)

From Stdlib Require Import ZArith Floats.PrimFloat.
From stdpp Require Import base decidable option list gmap strings pretty.
From Equations Require Import Equations.

Set Warnings "-register-all,-notation-for-abbreviation".
Open Scope string_scope.
Open Scope list_scope.

(** ** Python values, exceptions and effects *)

Module Py.

(** What [json.loads] can return. A Python [str] is a [string], one
    [ascii] standing for one character, so that [length] is Python's [len];
    a [dict] with [str] keys is a finite map. *)
Inductive pyobj :=
| PyNone
| PyBool (b : bool)
| PyInt (z : Z)
| PyFloat (f : float)
| PyStr (s : string)
| PyList (items : list pyobj)
| PyDict (items : gmap string pyobj).

(** The line errors of a pydantic [ValidationError]. *)
Inductive loc_item :=
| LocField (name : string)
| LocIndex (index : nat).

Inductive error_type :=
| Missing
| IntType
| IntParsing
| IntFromFloat
| GreaterThanEqual (ge : Z)
| LessThanEqual (le : Z)
| StringType
| StringTooShort (min_length : nat)
| StringTooLong (max_length : nat)
| ModelType (class_name : string)
| ListType
| TooShort (min_length actual_length : nat)
| TooLong (max_length actual_length : nat).

Record line_error := LineError { loc : list loc_item; type : error_type }.

Definition with_outer_location (outer : loc_item) (e : line_error) : line_error :=
  LineError (outer :: loc e) (type e).

(** The exceptions the two scripts can meet. *)
Inductive exn :=
| JSONDecodeError (msg : string)
| ValidationError (errors : list line_error)
| TypeError (msg : string)
| IndexError (msg : string)
| AttributeError (msg : string)
| APIError (msg : string).

(** Effects, in the order the interpreter performs them. [PrintExn prefix e]
    is [print(f"{prefix}{e}")] for an exception object [e]. *)
Inductive event :=
| ThreadsCreate
| MessagesCreate (content : string) (attachment : option string)
| RunsCreate (assistant_id : string)
| RunsRetrieve
| Sleep (seconds : nat)
| MessagesList
| FilesRetrieve (file_id : string)
| Print (text : string)
| PrintExn (prefix : string) (e : exn).

Definition trace := list event.

Definition is_check (e : event) : bool :=
  match e with RunsRetrieve => true | _ => false end.

Definition is_sleep (e : event) : bool :=
  match e with Sleep _ => true | _ => false end.

Definition is_console (e : event) : bool :=
  match e with Print _ | PrintExn _ _ => true | _ => false end.

(** Number of status checks and of sleeps recorded in a trace. *)
Definition checks (t : trace) : nat := length (List.filter is_check t).
Definition sleeps (t : trace) : nat := length (List.filter is_sleep t).

(** A computation either raises or returns, and extends the trace. *)
Definition M (A : Type) : Type := trace -> (exn + A) * trace.

Definition ret {A} (a : A) : M A := fun t => (inr a, t).

Definition bind {A B} (m : M A) (k : A -> M B) : M B :=
  fun t => match m t with
           | (inl e, t') => (inl e, t')
           | (inr a, t') => k a t'
           end.

Definition raise {A} (e : exn) : M A := fun t => (inl e, t).

(** [try: body except Exception as e: handler e]. *)
Definition try_except {A} (body : M A) (handler : exn -> M A) : M A :=
  fun t => match body t with
           | (inl e, t') => handler e t'
           | (inr a, t') => (inr a, t')
           end.

Definition emit (e : event) : M unit := fun t => (inr tt, t ++ [e]).

Definition print (text : string) : M unit := emit (Print text).
Definition print_exn (prefix : string) (e : exn) : M unit := emit (PrintExn prefix e).
Definition sleep (seconds : nat) : M unit := emit (Sleep seconds).

(** How a loop body was left: the loop ended (by [break] or because its
    condition failed) with the counter at [attempts], or the body executed
    [return r]. *)
Inductive loop_exit (R : Type) :=
| Fell_through (attempts : nat)
| Returned (r : R).
Arguments Fell_through {R} attempts.
Arguments Returned {R} r.

(** [str(x)] for an optional text. *)
Definition str_opt (x : option string) : string :=
  match x with Some s => s | None => "None" end.

(** A newline. *)
Definition nl : string := String (Ascii.ascii_of_nat 10) EmptyString.

End Py.

Export Py.

Declare Scope py_scope.
Delimit Scope py_scope with py.
Notation "x <- m ;; k" := (bind m (fun x => k))
  (at level 100, m at next level, right associativity) : py_scope.
Notation "m ;; k" := (bind m (fun _ => k))
  (at level 100, right associativity) : py_scope.
Open Scope py_scope.

(** ** The hosted assistants API, as the scripts use it *)

Module OpenAI.

Record Run := { status : string; last_error : option string }.

Inductive annotation :=
| FileCitationAnnotation (file_id : string)
| FilePathAnnotation (file_id : option string)
| OtherAnnotation.

(** A content block either has a [.text] with a [.value] and possibly
    [.annotations], or has no [.text] attribute at all (an image block). *)
Inductive content_block :=
| TextBlock (value : string) (annotations : option (list annotation))
| ImageBlock.

Record Message := { content : list content_block }.

Section Client.

(** [runs k] is what the [k]-th call of [runs.retrieve] answers, counting
    from 0; the job is only ever read. *)
Variable runs : nat -> Run.
(** What [messages.list] answers, most recent message first. *)
Variable thread_messages : list Message.
(** [files name] is the filename [files.retrieve] answers, [None] when the
    call raises. *)
Variable files : string -> option string.

Definition threads_create : M unit := emit ThreadsCreate.

Definition messages_create (content : string) (attachment : option string) : M unit :=
  emit (MessagesCreate content attachment).

Definition runs_create (assistant_id : string) : M unit :=
  emit (RunsCreate assistant_id).

Definition runs_retrieve : M Run :=
  fun t => (inr (runs (checks t)), t ++ [RunsRetrieve]).

Definition messages_list : M (list Message) :=
  emit MessagesList ;; ret thread_messages.

Definition files_retrieve (file_id : string) : M string :=
  emit (FilesRetrieve file_id) ;;
  match files file_id with
  | Some filename => ret filename
  | None => raise (APIError "files.retrieve")
  end.

End Client.

End OpenAI.

Export OpenAI.

(** Subscripting with [0] and attribute access, as the scripts do after the
    wait. *)
Definition subscript0 {A} (l : list A) : M A :=
  match l with
  | x :: _ => ret x
  | [] => raise (IndexError "list index out of range")
  end.

Definition text_of (block : content_block) : M (string * option (list annotation)) :=
  match block with
  | TextBlock value annotations => ret (value, annotations)
  | ImageBlock => raise (AttributeError "text")
  end.

(** [if file_id:] holds for a non-empty string only. *)
Definition truthy (file_id : option string) : option string :=
  match file_id with
  | Some f => if decide (f = "") then None else Some f
  | None => None
  end.

(** ** scripts/01_qna_assistant.py *)

Module QnA.

Record Citation := { file_id : string; citation : string }.

Section Script.

Variable runs : nat -> Run.
Variable thread_messages : list Message.
Variable files : string -> option string.

Definition get_file_name (file_id : string) : M string :=
  try_except
    (files_retrieve files file_id)
    (fun e =>
       print_exn ("Could not retrieve filename for " +:+ file_id +:+ ": ") e ;;
       ret ("Unknown file (" +:+ file_id +:+ ")")).

(** Lines 74-91: [while attempts < max_attempts: ...]. The loop variable
    [attempts] is the second argument; [break] and the failing condition
    both leave by [Fell_through], [return None, None] by [Returned]. *)
Equations? wait_loop (max_attempts attempts : nat)
  : M (loop_exit (option string * option (list Citation)))
  by wf (max_attempts - attempts) lt :=
wait_loop max_attempts attempts with lt_dec attempts max_attempts := {
  | left _ =>
      run <- runs_retrieve runs ;;
      if decide (status run = "completed") then
        ret (Fell_through attempts)
      else if decide (status run = "failed") then
        print ("Run failed: " +:+ str_opt (last_error run)) ;;
        ret (Returned (None, None))
      else if decide (status run ∈ ["cancelled"; "expired"]) then
        print ("Run " +:+ status run) ;;
        ret (Returned (None, None))
      else
        print "." ;;
        sleep 1 ;;
        wait_loop max_attempts (S attempts)
  | right _ => ret (Fell_through attempts) }.
Proof. lia. Qed.

(** Lines 113-128: the [for annotation in ...annotations] loop, [citations]
    being the list appended to. *)
Fixpoint collect_citations (annotations : list annotation) (citations : list Citation)
  : M (list Citation) :=
  match annotations with
  | [] => ret citations
  | FileCitationAnnotation fid :: rest =>
      file_name <- get_file_name fid ;;
      collect_citations rest (citations ++ [ {| file_id := fid; citation := file_name |} ])
  | FilePathAnnotation fid :: rest =>
      let file_id' := default "Unknown" fid in
      file_name <- (if decide (file_id' ≠ "Unknown") then get_file_name file_id'
                    else ret "Unknown file") ;;
      collect_citations rest (citations ++ [ {| file_id := file_id'; citation := file_name |} ])
  | OtherAnnotation :: rest => collect_citations rest citations
  end.

(** [ask_question], with the local constant [max_attempts] taken as an
    argument. *)
Definition ask_question_at (max_attempts : nat)
    (assistant_id question : string) (file_id : option string)
  : M (option string * option (list Citation)) :=
  try_except
    (threads_create ;;
     match truthy file_id with
     | Some f => print ("Attaching file " +:+ f +:+ " to message...")
     | None => ret tt
     end ;;
     messages_create question (truthy file_id) ;;
     runs_create assistant_id ;;
     print "Processing your question..." ;;
     exit <- wait_loop max_attempts 0 ;;
     match exit with
     | Returned r => ret r
     | Fell_through attempts =>
         if decide (max_attempts <= attempts) then
           print (nl +:+ "Timeout waiting for response") ;;
           ret (None, None)
         else
           print nl ;;
           messages <- messages_list thread_messages ;;
           response_message <- subscript0 messages ;;
           answer <- match content response_message with
                     | block :: _ => text <- text_of block ;; ret (fst text)
                     | [] => ret "No response received"
                     end ;;
           block <- subscript0 (content response_message) ;;
           text <- text_of block ;;
           citations <- match snd text with
                        | Some annotations => collect_citations annotations []
                        | None => ret []
                        end ;;
           ret (Some answer, Some citations)
     end)
    (fun e => print_exn "Error in ask_question: " e ;; ret (None, None)).

(** Line 71: [max_attempts = 30]. *)
Definition ask_question := ask_question_at 30.

End Script.

End QnA.

(** ** pydantic, as far as the declared models use it

    Version 2 in its default (lax) mode, validating Python objects:
    - an [int] field takes an [int], a [bool], a [float] without fractional
      part and a numeric [str]; the last two conversions are the library's
      and are section variables;
    - a [str] field takes a [str] only;
    - a model takes a [dict], reads its declared fields in declaration
      order, collects the errors of all of them and ignores every other key;
    - a list validates its items in order, fails with [too_long] as soon as
      an item beyond [max_length] is met, otherwise reports the errors of
      its items, and checks [min_length] last (the message of [too_short]
      reads "after validation"). *)

Module Pydantic.

Definition result (A : Type) : Type := list line_error + A.

Definition fail {A} (e : error_type) : result A := inl [LineError [] e].

Definition errors_of {A} (r : result A) : list line_error :=
  match r with inl es => es | inr _ => [] end.

(** A length against an optional bound. *)
Definition falls_short (len : nat) (min_length : option nat) : bool :=
  match min_length with Some m => Nat.ltb len m | None => false end.

Definition exceeds (len : nat) (max_length : option nat) : bool :=
  match max_length with Some m => Nat.ltb m len | None => false end.

Section Lax.

Variable str_as_int : string -> option Z.
Variable float_as_int : float -> option Z.

Definition check_ge (ge : option Z) (z : Z) : result Z :=
  match ge with
  | Some low => if decide (low <= z)%Z then inr z else fail (GreaterThanEqual low)
  | None => inr z
  end.

(** [int], with the bounds of [Field(ge=..., le=...)]. *)
Definition int_validator (ge le : option Z) (input : pyobj) : result Z :=
  let coerced : result Z :=
    match input with
    | PyInt z => inr z
    | PyBool b => inr (if b then 1 else 0)%Z
    | PyFloat f => match float_as_int f with Some z => inr z | None => fail IntFromFloat end
    | PyStr s => match str_as_int s with Some z => inr z | None => fail IntParsing end
    | _ => fail IntType
    end in
  match coerced with
  | inl es => inl es
  | inr z =>
      match le, ge with
      | Some bound, _ => if decide (z <= bound)%Z then check_ge ge z
                         else fail (LessThanEqual bound)
      | None, _ => check_ge ge z
      end
  end.

(** [str], with the bounds of [Field(min_length=..., max_length=...)]. *)
Definition str_validator (min_length max_length : option nat) (input : pyobj) : result string :=
  match input with
  | PyStr s =>
      if falls_short (String.length s) min_length then
        fail (StringTooShort (default 0 min_length))
      else if exceeds (String.length s) max_length then
        fail (StringTooLong (default 0 max_length))
      else inr s
  | _ => fail StringType
  end.

(** [Optional[T]]. *)
Definition nullable {A} (validator : pyobj -> result A) (input : pyobj) : result (option A) :=
  match input with
  | PyNone => inr None
  | _ => match validator input with inr a => inr (Some a) | inl es => inl es end
  end.

(** One declared field of a model: [Field(...)] has no default, [Field(d)]
    has the default [d]. *)
Definition field {A} (name : string) (dflt : option A)
    (validator : pyobj -> result A) (data : gmap string pyobj) : result A :=
  match data !! name with
  | Some input =>
      match validator input with
      | inr a => inr a
      | inl es => inl (map (with_outer_location (LocField name)) es)
      end
  | None =>
      match dflt with
      | Some d => inr d
      | None => inl [LineError [LocField name] Missing]
      end
  end.

(** The items of a list, [index] being the position of the next one. *)
Fixpoint validate_to_vec {A} (item_validator : pyobj -> result A)
    (max_length : option nat) (actual_length : nat) (index : nat) (items : list pyobj)
    (output : list A) (errors : list line_error) : result (list A) :=
  match items with
  | [] => match errors with [] => inr output | _ => inl errors end
  | item :: rest =>
      if exceeds (S index) max_length then
        fail (TooLong (default 0 max_length) actual_length)
      else
        match item_validator item with
        | inr a =>
            validate_to_vec item_validator max_length actual_length (S index) rest
              (output ++ [a]) errors
        | inl es =>
            validate_to_vec item_validator max_length actual_length (S index) rest
              output (errors ++ map (with_outer_location (LocIndex index)) es)
        end
  end.

(** [List[T]], with the bounds of [Field(min_items=..., max_items=...)]. *)
Definition list_validator {A} (item_validator : pyobj -> result A)
    (min_length max_length : option nat) (input : pyobj) : result (list A) :=
  match input with
  | PyList items =>
      match validate_to_vec item_validator max_length (length items) 0 items [] [] with
      | inl es => inl es
      | inr output =>
          if falls_short (length output) min_length then
            fail (TooShort (default 0 min_length) (length output))
          else inr output
      end
  | _ => fail ListType
  end.

End Lax.

End Pydantic.

(** ** scripts/02_generate_notes.py *)

Module GenerateNotes.

(** Lines 15-22: the two schema classes. *)
Record Note := { id : Z; heading : string; summary : string; page_ref : option Z }.

Record NotesResponse := { notes : list Note }.

Section Script.

Variable runs : nat -> Run.
Variable thread_messages : list Message.

(** [json.loads]: the parsed object, or the exception it raises
    ([JSONDecodeError msg] for a text that is not JSON). *)
Variable json_loads : string -> exn + pyobj.
Variable str_as_int : string -> option Z.
Variable float_as_int : float -> option Z.

Let int_validator := Pydantic.int_validator str_as_int float_as_int.

(** Building a [Note] from the keywords of a dict, field by field as
    declared on lines 16-19. *)
Definition Note_validate (input : pyobj) : Pydantic.result Note :=
  match input with
  | PyDict data =>
      let r_id := Pydantic.field "id" None (int_validator (Some 1%Z) (Some 10%Z)) data in
      let r_heading :=
        Pydantic.field "heading" None (Pydantic.str_validator (Some 1) (Some 100)) data in
      let r_summary :=
        Pydantic.field "summary" None (Pydantic.str_validator None (Some 150)) data in
      let r_page_ref :=
        Pydantic.field "page_ref" (Some None)
          (Pydantic.nullable (int_validator None None)) data in
      match r_id, r_heading, r_summary, r_page_ref with
      | inr i, inr h, inr s, inr p =>
          inr {| id := i; heading := h; summary := s; page_ref := p |}
      | _, _, _, _ =>
          inl (Pydantic.errors_of r_id ++ Pydantic.errors_of r_heading ++
               Pydantic.errors_of r_summary ++ Pydantic.errors_of r_page_ref)
      end
  | _ => Pydantic.fail (ModelType "Note")
  end.

(** Building a [NotesResponse] from the keywords of a dict, line 22. *)
Definition NotesResponse_validate (data : gmap string pyobj) : Pydantic.result NotesResponse :=
  match Pydantic.field "notes" None
          (Pydantic.list_validator Note_validate (Some 10) (Some 10)) data with
  | inr l => inr {| notes := l |}
  | inl es => inl es
  end.

(** Line 170, for whatever [json.loads] returned: unpacking into keywords
    needs a mapping. *)
Definition NotesResponse_init (data : pyobj) : M NotesResponse :=
  match data with
  | PyDict kwargs =>
      match NotesResponse_validate kwargs with
      | inr r => ret r
      | inl es => raise (ValidationError es)
      end
  | _ => raise (TypeError "argument after ** must be a mapping")
  end.

(** Lines 163-182. *)
Definition validate_and_create_notes (json_content : string) : M (option (list Note)) :=
  try_except
    (data <- match json_loads json_content with
             | inr data => ret data
             | inl e => raise e
             end ;;
     notes_response <- NotesResponse_init data ;;
     ret (Some (notes notes_response)))
    (fun e =>
       match e with
       | JSONDecodeError _ => print_exn "Invalid JSON: " e ;; ret None
       | ValidationError _ => print_exn "Validation error: " e ;; ret None
       | _ => print_exn "Error creating notes: " e ;; ret None
       end).

(** Lines 60-69. *)
Definition request_message : string :=
  "Please analyze the attached study material and create exactly 10 concise study notes. "
  +:+ "Each note should have:" +:+ nl
  +:+ "- A unique ID from 1 to 10" +:+ nl
  +:+ "- A clear heading (concept name)" +:+ nl
  +:+ "- A summary under 150 characters" +:+ nl
  +:+ "- Page reference if available" +:+ nl +:+ nl
  +:+ "Focus on the most important concepts for exam preparation. "
  +:+ "Return the response as a JSON object with a 'notes' array containing exactly 10 note objects.".

(** Lines 109-123: [while attempts < max_attempts: ...]; the body knows
    [completed] and [failed] only. *)
Equations? wait_loop (max_attempts attempts : nat) : M (loop_exit (option string))
  by wf (max_attempts - attempts) lt :=
wait_loop max_attempts attempts with lt_dec attempts max_attempts := {
  | left _ =>
      run <- runs_retrieve runs ;;
      if decide (status run = "completed") then
        ret (Fell_through attempts)
      else if decide (status run = "failed") then
        print ("Run failed: " +:+ str_opt (last_error run)) ;;
        ret (Returned None)
      else
        print "." ;;
        sleep 1 ;;
        wait_loop max_attempts (S attempts)
  | right _ => ret (Fell_through attempts) }.
Proof. lia. Qed.

(** [generate_notes_with_assistant], with the local constant
    [max_attempts] taken as an argument. *)
Definition generate_notes_with_assistant_at (max_attempts : nat)
    (assistant_id : string) (file_id : option string) : M (option string) :=
  try_except
    (threads_create ;;
     match truthy file_id with
     | Some f => print ("Attaching file " +:+ f +:+ " for content analysis...")
     | None => ret tt
     end ;;
     messages_create request_message (truthy file_id) ;;
     runs_create assistant_id ;;
     print "Generating study notes..." ;;
     exit <- wait_loop max_attempts 0 ;;
     match exit with
     | Returned r => ret r
     | Fell_through _ =>
         print nl ;;
         messages <- messages_list thread_messages ;;
         message <- subscript0 messages ;;
         block <- subscript0 (content message) ;;
         text <- text_of block ;;
         ret (Some (fst text))
     end)
    (fun e => print_exn "Error generating notes with assistant: " e ;; ret None).

(** Line 106: [max_attempts = 30]. *)
Definition generate_notes_with_assistant := generate_notes_with_assistant_at 30.

End Script.

End GenerateNotes.

(** ** The host of the notes script: listings, chat completion, clock, disk

    The remaining functions of [scripts/02_generate_notes.py] also list
    assistants and files, call the chat completion endpoint, read the clock
    and write two files. They run in a second monad whose state holds, next
    to the trace of the functions above, the requests sent, the files
    written and the number of clock readings, each in chronological order;
    the exceptions are those above and three more. An exception [e] printed
    in an f-string is printed as above when it is one of the first layer, and
    by its message otherwise. *)

Module Host.

Module Assistant.
Record t := { id : string; name : string }.
End Assistant.

Module FileObject.
Record t := { id : string; purpose : string; filename : string }.
End FileObject.

Inductive request :=
| AssistantsList
| FilesList
| ChatCompletionsCreate (model system_prompt : string).

(** [JsonDump filename data] is [json.dump(data, f)] into a file opened for
    writing; [TextFile filename chunks] is the sequence of [f.write] calls
    into one. *)
Inductive file_written :=
| JsonDump (filename : string) (data : pyobj)
| TextFile (filename : string) (chunks : list string).

Inductive exception :=
| PyExn (e : exn)
| ZeroDivisionError
| OSError (msg : string)
| ValueError (msg : string).

Record world := {
  log : trace;
  requests : list request;
  disk : list file_written;
  clock_reads : nat
}.

Definition IO (A : Type) : Type := world -> (exception + A) * world.

Definition ret {A} (a : A) : IO A := fun w => (inr a, w).

Definition bind {A B} (m : IO A) (k : A -> IO B) : IO B :=
  fun w => match m w with
           | (inl e, w') => (inl e, w')
           | (inr a, w') => k a w'
           end.

Definition raise {A} (e : exception) : IO A := fun w => (inl e, w).

Definition try_except {A} (body : IO A) (handler : exception -> IO A) : IO A :=
  fun w => match body w with
           | (inl e, w') => handler e w'
           | (inr a, w') => (inr a, w')
           end.

(** A function of the first layer, run on the trace of the world. *)
Definition lift {A} (m : M A) : IO A :=
  fun w => match m (log w) with
           | (r, t') =>
               (match r with inl e => inl (PyExn e) | inr a => inr a end,
                {| log := t'; requests := requests w; disk := disk w;
                   clock_reads := clock_reads w |})
           end.

Definition print (text : string) : IO unit := lift (Py.print text).

(** [print(f"{prefix}{e}")]. *)
Definition print_exception (prefix : string) (e : exception) : IO unit :=
  match e with
  | PyExn e' => lift (print_exn prefix e')
  | ZeroDivisionError => print (prefix +:+ "integer division or modulo by zero")
  | OSError msg => print (prefix +:+ msg)
  | ValueError msg => print (prefix +:+ msg)
  end.

Definition send (r : request) : IO unit :=
  fun w => (inr tt, {| log := log w; requests := requests w ++ [r]; disk := disk w;
                       clock_reads := clock_reads w |}).




(** [if x:] for an optional integer: neither [None] nor 0. *)
Definition int_truthy (x : option Z) : option Z :=
  match x with
  | Some z => if decide (z = 0%Z) then None else Some z
  | None => None
  end.


(** [note.model_dump()]. *)
Definition model_dump (note : GenerateNotes.Note) : gmap string pyobj :=
  list_to_map
    [("id", PyInt (GenerateNotes.id note));
     ("heading", PyStr (GenerateNotes.heading note));
     ("summary", PyStr (GenerateNotes.summary note));
     ("page_ref", match GenerateNotes.page_ref note with
                  | Some z => PyInt z
                  | None => PyNone
                  end)].

End Host.

Declare Scope io_scope.
Delimit Scope io_scope with io.
Notation "x <- m ;; k" := (Host.bind m (fun x => k))
  (at level 100, m at next level, right associativity) : io_scope.
Notation "m ;; k" := (Host.bind m (fun _ => k))
  (at level 100, right associativity) : io_scope.

(** ** scripts/02_generate_notes.py, continued *)

Module NotesScript.

Import Host.
Local Open Scope io_scope.

Section Script.

Variable runs : nat -> Run.
Variable thread_messages : list Message.
Variable json_loads : string -> exn + pyobj.
Variable str_as_int : string -> option Z.
Variable float_as_int : float -> option Z.

(** What [assistants.list], [files.list] and [chat.completions.create]
    answer ([None] when the call raises; a completion is the list of the
    contents of its choices). *)
Variable assistants : option (list Assistant.t).
Variable files_listed : option (list FileObject.t).
Variable completion : option (list (option string)).
(** The [k]-th reading of the clock by [time.strftime], [os.path.abspath],
    and the message of the error [open(filename, 'w')] fails with, if it
    fails. *)
Variable strftime : nat -> string.
Variable abspath : string -> string.
Variable open_error : string -> option string.

Definition assistants_list : IO (list Assistant.t) :=
  send AssistantsList ;;
  match assistants with
  | Some data => ret data
  | None => raise (PyExn (APIError "assistants.list"))
  end.


Definition chat_completions_create (model system_prompt : string)
  : IO (list (option string)) :=
  send (ChatCompletionsCreate model system_prompt) ;;
  match completion with
  | Some choices => ret choices
  | None => raise (PyExn (APIError "chat.completions.create"))
  end.




(** Lines 140-147. *)
Definition system_prompt : string :=
  "You are a study summarizer. "
  +:+ "Return exactly 10 unique notes that will help prepare for the exam. "
  +:+ "Each note must have: id (1-10), heading, summary (max 150 chars), and optional page_ref. "
  +:+ "Respond *only* with valid JSON matching this schema: "
  +:+ "{'notes': [{'id': int, 'heading': str, 'summary': str, 'page_ref': int|null}, ...]} "
  +:+ "Focus on key mathematical concepts like calculus, derivatives, integrals, theorems, and formulas.".

(** Lines 137-161. *)
Definition generate_notes_direct : IO (option string) :=
  try_except
    (choices <- chat_completions_create "gpt-4o-mini" system_prompt ;;
     lift (subscript0 choices))
    (fun e => print_exception "Error with direct generation: " e ;; ret None).




(** Lines 204-211: the object dumped. *)
Definition notes_data (notes : list GenerateNotes.Note) (generated_at : string) : pyobj :=
  PyDict (list_to_map
    [("exam_notes", PyList (map (fun note => PyDict (model_dump note)) notes));
     ("metadata", PyDict (list_to_map
        [("total_notes", PyInt (Z.of_nat (length notes)));
         ("generated_at", PyStr generated_at);
         ("purpose", PyStr "Exam preparation study notes")]))]).


(** Lines 243-248: what the loop writes for one note. *)
Definition markdown_of_note (note : GenerateNotes.Note) : list string :=
  ["## " +:+ pretty (GenerateNotes.id note) +:+ ". " +:+ GenerateNotes.heading note
    +:+ nl +:+ nl;
   "**Summary:** " +:+ GenerateNotes.summary note +:+ nl +:+ nl] ++
  match int_truthy (GenerateNotes.page_ref note) with
  | Some page => ["**Page Reference:** " +:+ pretty page +:+ nl +:+ nl]
  | None => []
  end ++
  ["---" +:+ nl +:+ nl].



End Script.

End NotesScript.

(** ** scripts/01_qna_assistant.py, continued *)

Module QnAScript.

Import Host.
Local Open Scope io_scope.

Section Script.

Variable assistants : option (list Assistant.t).

(** Lines 10-16. *)
Definition get_assistant : IO Assistant.t :=
  listed <- NotesScript.assistants_list assistants ;;
  match List.find (fun a => bool_decide (Assistant.name a = "Study Q&A Assistant"))
                  listed with
  | Some assistant => ret assistant
  | None => raise (ValueError "Assistant not found. Please run 00_bootstrap.py first.")
  end.

End Script.

End QnAScript.

(** * Vocabulary of the properties *)

(** One round of either wait loop that saw a status it does not act on:
    the check, the progress dot, the sleep. *)
Definition round : trace := [RunsRetrieve; Print "."; Sleep 1].

Fixpoint rounds (k : nat) : trace :=
  match k with
  | 0 => []
  | S k' => round ++ rounds k'
  end.

(** [costs c s m]: running [m] adds at most [c] status checks and at most
    [s] sleeps to the trace, whether it returns or raises. *)
Definition costs {A} (c s : nat) (m : M A) : Prop :=
  forall t, checks (snd (m t)) <= checks t + c /\ sleeps (snd (m t)) <= sleeps t + s.

(** [spec rel m Q R]: run from any world, [m] leaves a world related to it
    by [rel], and returns a value that satisfies [Q] or raises an exception
    that satisfies [R]. *)
Definition spec {A} (rel : Host.world -> Host.world -> Prop) (m : Host.IO A)
    (Q : A -> Prop) (R : Host.exception -> Prop) : Prop :=
  forall w, rel w (snd (m w)) /\
            match fst (m w) with
            | inr a => Q a
            | inl e => R e
            end.

(** No exception, and any value. *)
Definition never (e : Host.exception) : Prop := False.
Definition anything {A} (a : A) : Prop := True.

(** The disk is as it was. *)
Definition same_disk (w w' : Host.world) : Prop := Host.disk w' = Host.disk w.


(** A world in which only the trace differs. *)
Definition with_log (w : Host.world) (t : trace) : Host.world :=
  {| Host.log := t; Host.requests := Host.requests w; Host.disk := Host.disk w;
     Host.clock_reads := Host.clock_reads w |}.

(** The assistant the scripts look for. *)
Definition is_study_assistant (a : Host.Assistant.t) : Prop :=
  Host.Assistant.name a = "Study Q&A Assistant".


(** [x] is the first element of [l] that satisfies [P]. *)
Definition first_such {A} (P : A -> Prop) (l : list A) (x : A) : Prop :=
  exists before after, l = before ++ x :: after /\ P x /\ Forall (fun y => ~ P y) before.

(** [post m Q]: whenever [m] returns, the value it returns satisfies [Q]. *)
Definition post {A} (m : M A) (Q : A -> Prop) : Prop :=
  forall t r t', m t = (inr r, t') -> Q r.

(** The two shapes of what [ask_question] returns: [None, None], or an
    answer with its citations. *)
Definition both_or_none {A B} (r : option A * option B) : Prop :=
  r = (None, None) \/ exists a b, r = (Some a, Some b).

(** The text of the first content block of the latest message of a thread,
    when the thread has a message and that message starts with a text. *)
Definition latest_text (messages : list Message) : option string :=
  match messages with
  | {| content := TextBlock value _ :: _ |} :: _ => Some value
  | _ => None
  end.

(** The name [get_file_name] answers for a file id. *)
Definition file_name (files : string -> option string) (file_id : string) : string :=
  match files file_id with
  | Some filename => filename
  | None => "Unknown file (" +:+ file_id +:+ ")"
  end.

(** The citation an annotation gives rise to, if any. *)
Definition cite (files : string -> option string) (a : annotation) : option QnA.Citation :=
  match a with
  | FileCitationAnnotation fid =>
      Some {| QnA.file_id := fid; QnA.citation := file_name files fid |}
  | FilePathAnnotation fid =>
      Some {| QnA.file_id := default "Unknown" fid;
              QnA.citation := if decide (default "Unknown" fid = "Unknown")
                              then "Unknown file"
                              else file_name files (default "Unknown" fid) |}
  | OtherAnnotation => None
  end.

(** A status on which the loop of [ask_question] sleeps and checks again:
    none of the four it tests for. *)
Definition pending (run : Run) : Prop :=
  status run <> "completed" /\ status run <> "failed" /\
  status run ∉ ["cancelled"; "expired"].

(** A status on which the loop of [generate_notes_with_assistant] sleeps and
    checks again: anything but [completed] and [failed]. *)
Definition not_acted_on (run : Run) : Prop :=
  status run <> "completed" /\ status run <> "failed".

(** The trace of [ask_question] up to its wait loop. *)
Definition ask_prelude (assistant_id question : string) (file_id : option string) : trace :=
  [ThreadsCreate] ++
  match truthy file_id with
  | Some f => [Print ("Attaching file " +:+ f +:+ " to message...")]
  | None => []
  end ++
  [MessagesCreate question (truthy file_id); RunsCreate assistant_id;
   Print "Processing your question..."].

(** The trace of [generate_notes_with_assistant] up to its wait loop. *)
Definition generate_prelude (assistant_id : string) (file_id : option string) : trace :=
  [ThreadsCreate] ++
  match truthy file_id with
  | Some f => [Print ("Attaching file " +:+ f +:+ " for content analysis...")]
  | None => []
  end ++
  [MessagesCreate GenerateNotes.request_message (truthy file_id); RunsCreate assistant_id;
   Print "Generating study notes..."].

(** A status script: the statuses of the first checks, then [rest] forever. *)
Definition script (statuses : list string) (rest : string) (k : nat) : Run :=
  {| status := nth k statuses rest; last_error := None |}.

(** The stated bounds of the schema fields of a note. *)
Definition within_bounds (n : GenerateNotes.Note) : Prop :=
  (1 <= GenerateNotes.id n <= 10)%Z /\
  1 <= String.length (GenerateNotes.heading n) <= 100 /\
  String.length (GenerateNotes.summary n) <= 150.

(** The dict [data] holds the four schema fields of [n] under their keys,
    an absent [page_ref] being a missing key or [null]; nothing is said of
    any other key of [data]. *)
Definition carries (data : gmap string pyobj) (n : GenerateNotes.Note) : Prop :=
  data !! "id" = Some (PyInt (GenerateNotes.id n)) /\
  data !! "heading" = Some (PyStr (GenerateNotes.heading n)) /\
  data !! "summary" = Some (PyStr (GenerateNotes.summary n)) /\
  match GenerateNotes.page_ref n with
  | Some z => data !! "page_ref" = Some (PyInt z)
  | None => data !! "page_ref" = None \/ data !! "page_ref" = Some PyNone
  end.

(** The error list of a [notes] array of the wrong length [n]. *)
Definition wrong_arity (n : nat) (es : list line_error) : Prop :=
  es = [LineError [LocField "notes"] (TooShort 10 n)] \/
  es = [LineError [LocField "notes"] (TooLong 10 n)].

(** A chunk of the markdown file that is a page reference line. *)
Definition is_page_line (chunk : string) : Prop :=
  exists rest, chunk = "**Page Reference:** " +:+ rest.




(** Sample data for the concrete runs: a thread whose latest message is one
    text block, and a file catalogue that knows no file. *)
Definition sample_thread : list Message :=
  [ {| content := [TextBlock "latest message" None] |} ].

Definition no_files : string -> option string := fun _ => None.

(** A thread whose latest message cites a known file, has an annotation of
    another kind, a file path without id and a file the catalogue does not
    know; the catalogue knows one file. *)
Definition cited_annotations : list annotation :=
  [FileCitationAnnotation "file-1"; OtherAnnotation; FilePathAnnotation None;
   FileCitationAnnotation "file-9"].

Definition cited_thread : list Message :=
  [ {| content := [TextBlock "See chapter 2." (Some cited_annotations)] |} ].

Definition one_file : string -> option string :=
  fun file_id => if decide (file_id = "file-1") then Some "calculus_basics.pdf" else None.




(** A stand-in for [json.loads] that knows one text: it answers [parsed]
    for [text] and raises [JSONDecodeError] for any other. *)
Definition loads_only (text : string) (parsed : pyobj) : string -> exn + pyobj :=
  fun s => if decide (s = text) then inr parsed
           else inl (JSONDecodeError "Expecting value: line 1 column 1 (char 0)").

(** Lax conversions that convert nothing. *)
Definition no_str_as_int : string -> option Z := fun _ => None.
Definition no_float_as_int : float -> option Z := fun _ => None.

(** Sample JSON texts and the objects they parse to. *)
Definition dq : string := String (Ascii.ascii_of_nat 34) EmptyString.

Definition key (name : string) : string := dq +:+ name +:+ dq +:+ ": ".

Definition note_text (id page_ref : string) : string :=
  "{" +:+ key "id" +:+ id +:+ ", " +:+
  key "heading" +:+ dq +:+ "Mean Value Theorem" +:+ dq +:+ ", " +:+
  key "summary" +:+ dq +:+ "States that" +:+ dq +:+ ", " +:+
  key "page_ref" +:+ page_ref +:+ "}".

Definition note_dict (id page_ref : Z) : gmap string pyobj :=
  list_to_map [("id", PyInt id); ("heading", PyStr "Mean Value Theorem");
               ("summary", PyStr "States that"); ("page_ref", PyInt page_ref)].

Definition sample_note (id page_ref : Z) : GenerateNotes.Note :=
  {| GenerateNotes.id := id; GenerateNotes.heading := "Mean Value Theorem";
     GenerateNotes.summary := "States that"; GenerateNotes.page_ref := Some page_ref |}.

Fixpoint join (sep : string) (parts : list string) : string :=
  match parts with
  | [] => ""
  | [part] => part
  | part :: rest => part +:+ sep +:+ join sep rest
  end.

Definition notes_text (items : list string) : string :=
  "{" +:+ key "notes" +:+ "[" +:+ join ", " items +:+ "]}".

Definition notes_dict (items : list pyobj) : gmap string pyobj :=
  {[ "notes" := PyList items ]}.


(** Ten notes, the first two both numbered 1. *)
Definition duplicate_ids_text : string :=
  notes_text (map (fun id => note_text id "42")
                  ["1"; "1"; "3"; "4"; "5"; "6"; "7"; "8"; "9"; "10"]).
Definition duplicate_ids : gmap string pyobj :=
  notes_dict (map (fun id => PyDict (note_dict id 42)) [1; 1; 3; 4; 5; 6; 7; 8; 9; 10]%Z).

(** An object with the key [exam_notes] and no key [notes]. *)
Definition exam_notes_text : string := "{" +:+ key "exam_notes" +:+ "[]}".
Definition exam_notes_only : gmap string pyobj := {[ "exam_notes" := PyList [] ]}.

(** Ten notes of which the last has id 0. *)
Definition zero_id_text : string :=
  notes_text (map (fun id => note_text id "42")
                  ["1"; "2"; "3"; "4"; "5"; "6"; "7"; "8"; "9"; "0"]).
Definition zero_id_items : list pyobj :=
  map (fun id => PyDict (note_dict id 42)) [1; 2; 3; 4; 5; 6; 7; 8; 9; 0]%Z.
Definition zero_id : gmap string pyobj := notes_dict zero_id_items.


(** * Properties *)

(** ** Counting status checks and sleeps *)

Lemma checks_app (t u : trace) : checks (t ++ u) = checks t + checks u.
Proof. unfold checks. rewrite List.filter_app, length_app. reflexivity. Qed.

Lemma sleeps_app (t u : trace) : sleeps (t ++ u) = sleeps t + sleeps u.
Proof. unfold sleeps. rewrite List.filter_app, length_app. reflexivity. Qed.


Lemma checks_rounds k : checks (rounds k) = k.
Proof. induction k as [|k IH]; [reflexivity|]. cbn [rounds]. rewrite checks_app, IH. reflexivity. Qed.

Lemma sleeps_rounds k : sleeps (rounds k) = k.
Proof. induction k as [|k IH]; [reflexivity|]. cbn [rounds]. rewrite sleeps_app, IH. reflexivity. Qed.


Section Costs.

Context {A B : Type}.

Lemma costs_ret (a : A) : costs 0 0 (ret a).
Proof. intros t. simpl. lia. Qed.

Lemma costs_raise (e : exn) : costs 0 0 (raise (A := A) e).
Proof. intros t. simpl. lia. Qed.

Lemma costs_weaken c s c' s' (m : M A) :
  costs c s m -> c <= c' -> s <= s' -> costs c' s' m.
Proof. intros H Hc Hs t. destruct (H t). lia. Qed.

Lemma costs_bind c1 s1 c2 s2 (m : M A) (k : A -> M B) :
  costs c1 s1 m -> (forall a, costs c2 s2 (k a)) -> costs (c1 + c2) (s1 + s2) (bind m k).
Proof.
  intros Hm Hk t. unfold bind. destruct (Hm t) as [Hc Hs].
  destruct (m t) as [[e|a] t']; simpl in *; [lia|].
  destruct (Hk a t'). lia.
Qed.

Lemma costs_try_except c1 s1 c2 s2 (m : M A) (h : exn -> M A) :
  costs c1 s1 m -> (forall e, costs c2 s2 (h e)) -> costs (c1 + c2) (s1 + s2) (try_except m h).
Proof.
  intros Hm Hh t. unfold try_except. destruct (Hm t) as [Hc Hs].
  destruct (m t) as [[e|a] t']; simpl in *; [|lia].
  destruct (Hh e t'). lia.
Qed.

End Costs.

Lemma costs_emit (e : event) : costs (checks [e]) (sleeps [e]) (emit e).
Proof. intros t. unfold emit. simpl snd. rewrite checks_app, sleeps_app. lia. Qed.

Lemma costs_print text : costs 0 0 (print text).
Proof. apply (costs_emit (Print text)). Qed.

Lemma costs_print_exn prefix e : costs 0 0 (print_exn prefix e).
Proof. apply (costs_emit (PrintExn prefix e)). Qed.

Lemma costs_sleep n : costs 0 1 (sleep n).
Proof. apply (costs_emit (Sleep n)). Qed.

Lemma costs_runs_retrieve runs : costs 1 0 (runs_retrieve runs).
Proof.
  intros t. unfold runs_retrieve. cbn [snd]. rewrite checks_app, sleeps_app.
  change (checks [RunsRetrieve]) with 1. change (sleeps [RunsRetrieve]) with 0. lia.
Qed.

Lemma costs_messages_list msgs : costs 0 0 (messages_list msgs).
Proof.
  unfold messages_list. apply (costs_bind 0 0 0 0); [apply (costs_emit MessagesList)|].
  intros _. apply costs_ret.
Qed.

Lemma costs_subscript0 {A} (l : list A) : costs 0 0 (subscript0 l).
Proof. destruct l; [apply costs_raise | apply costs_ret]. Qed.

Lemma costs_text_of block : costs 0 0 (text_of block).
Proof. destruct block; [apply costs_ret | apply costs_raise]. Qed.

Create HintDb costs.
#[export] Hint Resolve costs_ret costs_raise costs_print costs_print_exn costs_sleep
  costs_runs_retrieve costs_messages_list costs_subscript0 costs_text_of : costs.

(** Closes [costs 0 0] goals of code that neither checks nor sleeps. *)
Ltac costs_quiet :=
  repeat first
    [ progress eauto with costs
    | apply (costs_bind 0 0 0 0); [ | intros ? ]
    | apply (costs_try_except 0 0 0 0); [ | intros ? ]
    | match goal with |- costs _ _ (match ?x with _ => _ end) => destruct x end
    | match goal with |- costs _ _ (if ?x then _ else _) => destruct x end ].

(** ** The wait loop of [ask_question] *)

Lemma bind_run {A B} (m : M A) (k : A -> M B) (t : trace) :
  bind m k t = match m t with (inl e, t') => (inl e, t') | (inr a, t') => k a t' end.
Proof. reflexivity. Qed.

Lemma try_emit {A} (e : event) (k : unit -> M A) (h : exn -> M A) (t : trace) :
  try_except (bind (emit e) k) h t = try_except (k tt) h (t ++ [e]).
Proof. reflexivity. Qed.

Lemma try_ret {A B} (a : A) (k : A -> M B) (h : exn -> M B) (t : trace) :
  try_except (bind (ret a) k) h t = try_except (k a) h t.
Proof. reflexivity. Qed.

Lemma try_bind_run {A B} (m : M A) (k : A -> M B) (h : exn -> M B) (t : trace) :
  try_except (bind m k) h t =
  match m t with
  | (inl e, t') => h e t'
  | (inr a, t') => try_except (k a) h t'
  end.
Proof. unfold try_except, bind. destruct (m t) as [[e|a] t']; reflexivity. Qed.

Lemma terminal_failure_cases (s : string) :
  s ∈ ["failed"; "cancelled"; "expired"] ->
  s <> "completed" /\ (s = "failed" \/ s ∈ ["cancelled"; "expired"]).
Proof.
  intros H. apply elem_of_cons in H as [->|H]; [split; [discriminate|left; reflexivity]|].
  split; [|right; exact H].
  intros ->. apply elem_of_cons in H as [H|H]; [discriminate|].
  apply elem_of_cons in H as [H|H]; [discriminate|]. apply elem_of_nil in H. exact H.
Qed.

Lemma prelude_counts_ask assistant_id question file_id :
  checks (ask_prelude assistant_id question file_id) = 0 /\
  sleeps (ask_prelude assistant_id question file_id) = 0.
Proof. unfold ask_prelude. destruct (truthy file_id); split; reflexivity. Qed.

Lemma prelude_counts_generate assistant_id file_id :
  checks (generate_prelude assistant_id file_id) = 0 /\
  sleeps (generate_prelude assistant_id file_id) = 0.
Proof. unfold generate_prelude. destruct (truthy file_id); split; reflexivity. Qed.

Section AskQuestion.

Variable runs : nat -> Run.
Variable thread_messages : list Message.
Variable files : string -> option string.

Lemma ask_wait_unfold max_attempts attempts :
  QnA.wait_loop runs max_attempts attempts =
  if lt_dec attempts max_attempts then
    run <- runs_retrieve runs ;;
    if decide (status run = "completed") then
      ret (Fell_through attempts)
    else if decide (status run = "failed") then
      print ("Run failed: " +:+ str_opt (last_error run)) ;;
      ret (Returned (None, None))
    else if decide (status run ∈ ["cancelled"; "expired"]) then
      print ("Run " +:+ status run) ;;
      ret (Returned (None, None))
    else
      print "." ;;
      sleep 1 ;;
      QnA.wait_loop runs max_attempts (S attempts)
  else ret (Fell_through attempts).
Proof.
  rewrite (QnA.wait_loop_equation_1 runs max_attempts attempts).
  destruct (lt_dec attempts max_attempts);
    [rewrite QnA.wait_loop_clause_1_equation_1|]; reflexivity.
Qed.

(** The loop checks and sleeps at most once per remaining attempt. *)
Lemma costs_ask_wait max_attempts attempts :
  costs (max_attempts - attempts) (max_attempts - attempts)
        (QnA.wait_loop runs max_attempts attempts).
Proof.
  remember (max_attempts - attempts) as n eqn:Hn.
  revert attempts Hn. induction n as [|n IH]; intros attempts Hn;
    rewrite ask_wait_unfold; destruct (lt_dec attempts max_attempts); try lia;
    try apply costs_ret.
  apply (costs_bind 1 0 n (S n)); [apply costs_runs_retrieve|]. intros run.
  repeat match goal with
         | |- costs _ _ (if ?c then _ else _) => destruct c
         end.
  - eapply costs_weaken; [apply costs_ret|lia..].
  - eapply costs_weaken; [apply (costs_bind 0 0 0 0); [apply costs_print|intros; apply costs_ret]|lia..].
  - eapply costs_weaken; [apply (costs_bind 0 0 0 0); [apply costs_print|intros; apply costs_ret]|lia..].
  - apply (costs_bind 0 0 n (S n)); [apply costs_print|]. intros _.
    apply (costs_bind 0 1 n n); [apply costs_sleep|]. intros _.
    apply IH. lia.
Qed.

(** While the statuses seen are pending, each attempt is one round. *)
Lemma ask_wait_pending k : forall max_attempts attempts t,
  attempts + k <= max_attempts ->
  (forall j, j < k -> pending (runs (checks t + j))) ->
  QnA.wait_loop runs max_attempts attempts t =
  QnA.wait_loop runs max_attempts (attempts + k) (t ++ rounds k).
Proof.
  induction k as [|k IH]; intros max_attempts attempts t Hle Hpend.
  - rewrite Nat.add_0_r, app_nil_r. reflexivity.
  - rewrite ask_wait_unfold. destruct (lt_dec attempts max_attempts); [|lia].
    rewrite bind_run. unfold runs_retrieve.
    destruct (Hpend 0 ltac:(lia)) as (Hc & Hf & Hce). rewrite Nat.add_0_r in Hc, Hf, Hce.
    destruct (decide (status (runs (checks t)) = "completed")); [done|].
    destruct (decide (status (runs (checks t)) = "failed")); [done|].
    destruct (decide (status (runs (checks t)) ∈ ["cancelled"; "expired"])); [done|].
    rewrite bind_run. unfold print, emit at 1. rewrite bind_run. unfold sleep, emit at 1.
    rewrite (IH max_attempts (S attempts)); [|lia|].
    + cbn [rounds]. unfold round. rewrite <- !app_assoc. simpl.
      replace (attempts + S k) with (S (attempts + k)) by lia. reflexivity.
    + intros j Hj. rewrite !checks_app.
      change (checks [RunsRetrieve]) with 1. change (checks [Print "."]) with 0.
      change (checks [Sleep 1]) with 0.
      replace (checks t + 1 + 0 + 0 + j) with (checks t + S j) by lia.
      apply Hpend. lia.
Qed.

(** The function runs its wait loop on the prelude and handles whatever the
    rest raises. *)
Lemma ask_question_at_unfold max_attempts assistant_id question file_id t :
  QnA.ask_question_at runs thread_messages files max_attempts assistant_id question file_id t =
  try_except
    (exit <- QnA.wait_loop runs max_attempts 0 ;;
     match exit with
     | Returned r => ret r
     | Fell_through attempts =>
         if decide (max_attempts <= attempts) then
           print (nl +:+ "Timeout waiting for response") ;;
           ret (None, None)
         else
           print nl ;;
           messages <- messages_list thread_messages ;;
           response_message <- subscript0 messages ;;
           answer <- match content response_message with
                     | block :: _ => text <- text_of block ;; ret (fst text)
                     | [] => ret "No response received"
                     end ;;
           block <- subscript0 (content response_message) ;;
           text <- text_of block ;;
           citations <- match snd text with
                        | Some annotations =>
                            QnA.collect_citations files annotations []
                        | None => ret []
                        end ;;
           ret (Some answer, Some citations)
     end)
    (fun e => print_exn "Error in ask_question: " e ;; ret (None, None))
    (t ++ ask_prelude assistant_id question file_id).
Proof.
  unfold QnA.ask_question_at, ask_prelude, threads_create, messages_create, runs_create, print.
  rewrite try_emit.
  destruct (truthy file_id) as [f|]; [rewrite try_emit|rewrite try_ret];
    rewrite !try_emit, <- !app_assoc; reflexivity.
Qed.

Lemma get_file_name_run file_id t :
  exists name t', QnA.get_file_name files file_id t = (inr name, t') /\
                  checks t' = checks t /\ sleeps t' = sleeps t.
Proof.
  unfold QnA.get_file_name, try_except, files_retrieve. rewrite bind_run.
  unfold emit at 1. destruct (files file_id) as [name|].
  - eexists _, _. split; [reflexivity|]. rewrite checks_app, sleeps_app.
    change (checks [FilesRetrieve file_id]) with 0.
    change (sleeps [FilesRetrieve file_id]) with 0. lia.
  - eexists _, _. split; [reflexivity|]. rewrite !checks_app, !sleeps_app.
    split; reflexivity || (cbn; lia).
Qed.

Lemma collect_citations_run annotations : forall citations t,
  exists result t', QnA.collect_citations files annotations citations t = (inr result, t') /\
                    checks t' = checks t /\ sleeps t' = sleeps t.
Proof.
  induction annotations as [|[fid|fid|] rest IH]; intros citations t; cbn [QnA.collect_citations].
  - eexists _, _. split; [reflexivity|]. split; reflexivity.
  - rewrite bind_run. destruct (get_file_name_run fid t) as (name & t1 & -> & Hc & Hs).
    destruct (IH (citations ++ [ {| QnA.file_id := fid; QnA.citation := name |} ]) t1)
      as (r & t2 & -> & Hc2 & Hs2).
    eexists _, _. split; [reflexivity|]. split; congruence.
  - rewrite bind_run. destruct (decide (default "Unknown" fid <> "Unknown")).
    + destruct (get_file_name_run (default "Unknown" fid) t) as (name & t1 & -> & Hc & Hs).
      destruct (IH (citations ++ [ {| QnA.file_id := default "Unknown" fid;
                                      QnA.citation := name |} ]) t1)
        as (r & t2 & -> & Hc2 & Hs2).
      eexists _, _. split; [reflexivity|]. split; congruence.
    + cbn [ret]. apply IH.
  - apply IH.
Qed.
Lemma costs_collect_citations annotations citations :
  costs 0 0 (QnA.collect_citations files annotations citations).
Proof.
  intros t. destruct (collect_citations_run annotations citations t) as (r & t' & -> & Hc & Hs).
  cbn [snd]. lia.
Qed.

(** Whatever the service answers, [ask_question] checks the status at most
    [max_attempts] times and sleeps at most [max_attempts] times. *)
Lemma costs_ask_question_at max_attempts assistant_id question file_id :
  let t := snd (QnA.ask_question_at runs thread_messages files max_attempts
                  assistant_id question file_id []) in
  checks t <= max_attempts /\ sleeps t <= max_attempts.
Proof.
  rewrite ask_question_at_unfold. cbn [app].
  destruct (prelude_counts_ask assistant_id question file_id) as [Hc Hs].
  cut (costs max_attempts max_attempts
         (try_except
            (exit <- QnA.wait_loop runs max_attempts 0 ;;
             match exit with
             | Returned r => ret r
             | Fell_through attempts =>
                 if decide (max_attempts <= attempts) then
                   print (nl +:+ "Timeout waiting for response") ;;
                   ret (None, None)
                 else
                   print nl ;;
                   messages <- messages_list thread_messages ;;
                   response_message <- subscript0 messages ;;
                   answer <- match content response_message with
                             | block :: _ => text <- text_of block ;; ret (fst text)
                             | [] => ret "No response received"
                             end ;;
                   block <- subscript0 (content response_message) ;;
                   text <- text_of block ;;
                   citations <- match snd text with
                                | Some annotations =>
                                    QnA.collect_citations files annotations []
                                | None => ret []
                                end ;;
                   ret (Some answer, Some citations)
             end)
            (fun e => print_exn "Error in ask_question: " e ;; ret (None, None)))).
  { intros H. specialize (H (ask_prelude assistant_id question file_id)).
    rewrite Hc, Hs in H. exact H. }
  eapply costs_weaken; [apply (costs_try_except max_attempts max_attempts 0 0)| lia..].
  - eapply costs_weaken; [apply (costs_bind max_attempts max_attempts 0 0)| lia..].
    + pose proof (costs_ask_wait max_attempts 0) as H. rewrite Nat.sub_0_r in H. exact H.
    + intros [attempts|r]; [|apply costs_ret].
      pose proof costs_collect_citations. costs_quiet.
  - intros e. costs_quiet.
Qed.

Lemma ask_wait_exhausted max_attempts t :
  QnA.wait_loop runs max_attempts max_attempts t = (inr (Fell_through max_attempts), t).
Proof. rewrite ask_wait_unfold. destruct (lt_dec max_attempts max_attempts); [lia|reflexivity]. Qed.

(** The timeout path: [max_attempts] pending statuses in a row. *)
Lemma ask_question_timeout max_attempts assistant_id question file_id :
  (forall j, j < max_attempts -> pending (runs j)) ->
  QnA.ask_question_at runs thread_messages files max_attempts assistant_id question file_id [] =
  (inr (None, None),
   ask_prelude assistant_id question file_id ++ rounds max_attempts ++
   [Print (nl +:+ "Timeout waiting for response")]).
Proof.
  intros Hpend. rewrite ask_question_at_unfold. cbn [app]. rewrite try_bind_run.
  destruct (prelude_counts_ask assistant_id question file_id) as [Hc _].
  rewrite (ask_wait_pending max_attempts max_attempts 0); [|lia|].
  - cbn [Nat.add]. rewrite ask_wait_exhausted.
    destruct (decide (max_attempts <= max_attempts)); [|lia].
    unfold print. rewrite try_emit, <- app_assoc. reflexivity.
  - intros j Hj. rewrite Hc. apply Hpend, Hj.
Qed.

(** A terminal failure seen by check number [k] (from 0) ends the call at
    once: [k] rounds, the check, the message. *)
Lemma ask_question_terminal_failure max_attempts assistant_id question file_id k :
  k < max_attempts ->
  (forall j, j < k -> pending (runs j)) ->
  status (runs k) ∈ ["failed"; "cancelled"; "expired"] ->
  QnA.ask_question_at runs thread_messages files max_attempts assistant_id question file_id [] =
  (inr (None, None),
   ask_prelude assistant_id question file_id ++ rounds k ++
   [RunsRetrieve;
    Print (if decide (status (runs k) = "failed")
           then "Run failed: " +:+ str_opt (last_error (runs k))
           else "Run " +:+ status (runs k))]).
Proof.
  intros Hk Hpend Hst. rewrite ask_question_at_unfold. cbn [app]. rewrite try_bind_run.
  destruct (prelude_counts_ask assistant_id question file_id) as [Hc _].
  rewrite (ask_wait_pending k max_attempts 0); [|lia|].
  2: { intros j Hj. rewrite Hc. apply Hpend, Hj. }
  cbn [Nat.add]. rewrite ask_wait_unfold. destruct (lt_dec k max_attempts); [|lia].
  rewrite bind_run. unfold runs_retrieve. rewrite checks_app, Hc, checks_rounds. cbn [Nat.add].
  destruct (terminal_failure_cases _ Hst) as (Hnc & Hcases).
  destruct (decide (status (runs k) = "completed")) as [Heq|_]; [done|].
  destruct (decide (status (runs k) = "failed")) as [Heq|Hnf].
  - rewrite bind_run. unfold print, emit. cbn [ret try_except].
    rewrite <- !app_assoc. reflexivity.
  - destruct (decide (status (runs k) ∈ ["cancelled"; "expired"])) as [_|Hn].
    + rewrite bind_run. unfold print, emit. cbn [ret try_except].
      rewrite <- !app_assoc. reflexivity.
    + destruct Hcases; done.
Qed.

(** The success path: [completed] seen by check number [k] (from 0), and a
    thread whose latest message starts with a text block. *)
Lemma ask_question_completed max_attempts assistant_id question file_id k
    value annotations blocks older :
  k < max_attempts ->
  (forall j, j < k -> pending (runs j)) ->
  status (runs k) = "completed" ->
  thread_messages = {| content := TextBlock value annotations :: blocks |} :: older ->
  exists citations t',
    QnA.ask_question_at runs thread_messages files max_attempts
      assistant_id question file_id [] = (inr (Some value, Some citations), t') /\
    checks t' = k + 1 /\ sleeps t' = k.
Proof.
  intros Hk Hpend Hst Hmsg. rewrite ask_question_at_unfold. cbn [app]. rewrite try_bind_run.
  destruct (prelude_counts_ask assistant_id question file_id) as [Hc Hs].
  rewrite (ask_wait_pending k max_attempts 0); [|lia|].
  2: { intros j Hj. rewrite Hc. apply Hpend, Hj. }
  cbn [Nat.add]. rewrite ask_wait_unfold. destruct (lt_dec k max_attempts); [|lia].
  rewrite bind_run. unfold runs_retrieve. rewrite checks_app, Hc, checks_rounds. cbn [Nat.add].
  destruct (decide (status (runs k) = "completed")); [|done]. cbn [ret].
  destruct (decide (max_attempts <= k)); [lia|].
  unfold print. rewrite try_emit. unfold messages_list. rewrite try_bind_run, bind_run.
  unfold emit at 1. cbn [ret]. rewrite Hmsg. cbn [subscript0]. rewrite try_ret.
  cbn [content]. rewrite try_bind_run, bind_run. cbn [text_of ret fst].
  cbn [subscript0]. rewrite try_ret. cbn [text_of]. rewrite try_ret. cbn [snd].
  rewrite try_bind_run.
  set (t0 := (((ask_prelude assistant_id question file_id ++ rounds k) ++ [RunsRetrieve]) ++
              [Print nl]) ++ [MessagesList]).
  assert (Ht0 : checks t0 = k + 1 /\ sleeps t0 = k).
  { unfold t0. rewrite !checks_app, !sleeps_app, Hc, Hs, checks_rounds, sleeps_rounds.
    split; cbn; lia. }
  destruct annotations as [anns|].
  - destruct (collect_citations_run anns [] t0) as (r & t' & -> & Hc' & Hs').
    exists r, t'. split; [reflexivity|]. lia.
  - exists [], t0. split; [reflexivity|]. exact Ht0.
Qed.

End AskQuestion.

(** ** The wait loop of [generate_notes_with_assistant] *)

Section GenerateWait.

Variable runs : nat -> Run.
Variable thread_messages : list Message.

Lemma generate_wait_unfold max_attempts attempts :
  GenerateNotes.wait_loop runs max_attempts attempts =
  if lt_dec attempts max_attempts then
    run <- runs_retrieve runs ;;
    if decide (status run = "completed") then
      ret (Fell_through attempts)
    else if decide (status run = "failed") then
      print ("Run failed: " +:+ str_opt (last_error run)) ;;
      ret (Returned None)
    else
      print "." ;;
      sleep 1 ;;
      GenerateNotes.wait_loop runs max_attempts (S attempts)
  else ret (Fell_through attempts).
Proof.
  rewrite (GenerateNotes.wait_loop_equation_1 runs max_attempts attempts).
  destruct (lt_dec attempts max_attempts);
    [rewrite GenerateNotes.wait_loop_clause_1_equation_1|]; reflexivity.
Qed.

Lemma costs_generate_wait max_attempts attempts :
  costs (max_attempts - attempts) (max_attempts - attempts)
        (GenerateNotes.wait_loop runs max_attempts attempts).
Proof.
  remember (max_attempts - attempts) as n eqn:Hn.
  revert attempts Hn. induction n as [|n IH]; intros attempts Hn;
    rewrite generate_wait_unfold; destruct (lt_dec attempts max_attempts); try lia;
    try apply costs_ret.
  apply (costs_bind 1 0 n (S n)); [apply costs_runs_retrieve|]. intros run.
  destruct (decide (status run = "completed")); [|destruct (decide (status run = "failed"))].
  - eapply costs_weaken; [apply costs_ret|lia..].
  - eapply costs_weaken; [apply (costs_bind 0 0 0 0); [apply costs_print|intros; apply costs_ret]|lia..].
  - apply (costs_bind 0 0 n (S n)); [apply costs_print|]. intros _.
    apply (costs_bind 0 1 n n); [apply costs_sleep|]. intros _.
    apply IH. lia.
Qed.

(** While the statuses seen are neither [completed] nor [failed], each
    attempt is one round. *)
Lemma generate_wait_rounds k : forall max_attempts attempts t,
  attempts + k <= max_attempts ->
  (forall j, j < k -> not_acted_on (runs (checks t + j))) ->
  GenerateNotes.wait_loop runs max_attempts attempts t =
  GenerateNotes.wait_loop runs max_attempts (attempts + k) (t ++ rounds k).
Proof.
  induction k as [|k IH]; intros max_attempts attempts t Hle Hpend.
  - rewrite Nat.add_0_r, app_nil_r. reflexivity.
  - rewrite generate_wait_unfold. destruct (lt_dec attempts max_attempts); [|lia].
    rewrite bind_run. unfold runs_retrieve.
    destruct (Hpend 0 ltac:(lia)) as (Hc & Hf). rewrite Nat.add_0_r in Hc, Hf.
    destruct (decide (status (runs (checks t)) = "completed")); [done|].
    destruct (decide (status (runs (checks t)) = "failed")); [done|].
    rewrite bind_run. unfold print, emit at 1. rewrite bind_run. unfold sleep, emit at 1.
    rewrite (IH max_attempts (S attempts)); [|lia|].
    + cbn [rounds]. unfold round. rewrite <- !app_assoc. simpl.
      replace (attempts + S k) with (S (attempts + k)) by lia. reflexivity.
    + intros j Hj. rewrite !checks_app.
      change (checks [RunsRetrieve]) with 1. change (checks [Print "."]) with 0.
      change (checks [Sleep 1]) with 0.
      replace (checks t + 1 + 0 + 0 + j) with (checks t + S j) by lia.
      apply Hpend. lia.
Qed.

Lemma generate_wait_exhausted max_attempts t :
  GenerateNotes.wait_loop runs max_attempts max_attempts t =
  (inr (Fell_through max_attempts), t).
Proof.
  rewrite generate_wait_unfold.
  destruct (lt_dec max_attempts max_attempts); [lia|reflexivity].
Qed.

Lemma generate_notes_at_unfold max_attempts assistant_id file_id t :
  GenerateNotes.generate_notes_with_assistant_at runs thread_messages max_attempts
    assistant_id file_id t =
  try_except
    (exit <- GenerateNotes.wait_loop runs max_attempts 0 ;;
     match exit with
     | Returned r => ret r
     | Fell_through _ =>
         print nl ;;
         messages <- messages_list thread_messages ;;
         message <- subscript0 messages ;;
         block <- subscript0 (content message) ;;
         text <- text_of block ;;
         ret (Some (fst text))
     end)
    (fun e => print_exn "Error generating notes with assistant: " e ;; ret None)
    (t ++ generate_prelude assistant_id file_id).
Proof.
  unfold GenerateNotes.generate_notes_with_assistant_at, generate_prelude,
    threads_create, messages_create, runs_create, print.
  rewrite try_emit.
  destruct (truthy file_id) as [f|]; [rewrite try_emit|rewrite try_ret];
    rewrite !try_emit, <- !app_assoc; reflexivity.
Qed.

(** Whatever the service answers, [generate_notes_with_assistant] checks
    the status at most [max_attempts] times and sleeps at most
    [max_attempts] times. *)
Lemma costs_generate_notes_at max_attempts assistant_id file_id :
  let t := snd (GenerateNotes.generate_notes_with_assistant_at runs thread_messages
                  max_attempts assistant_id file_id []) in
  checks t <= max_attempts /\ sleeps t <= max_attempts.
Proof.
  rewrite generate_notes_at_unfold. cbn [app].
  destruct (prelude_counts_generate assistant_id file_id) as [Hc Hs].
  cut (costs max_attempts max_attempts
         (try_except
            (exit <- GenerateNotes.wait_loop runs max_attempts 0 ;;
             match exit with
             | Returned r => ret r
             | Fell_through _ =>
                 print nl ;;
                 messages <- messages_list thread_messages ;;
                 message <- subscript0 messages ;;
                 block <- subscript0 (content message) ;;
                 text <- text_of block ;;
                 ret (Some (fst text))
             end)
            (fun e => print_exn "Error generating notes with assistant: " e ;; ret None))).
  { intros H. specialize (H (generate_prelude assistant_id file_id)).
    rewrite Hc, Hs in H. exact H. }
  eapply costs_weaken; [apply (costs_try_except max_attempts max_attempts 0 0)| lia..].
  - eapply costs_weaken; [apply (costs_bind max_attempts max_attempts 0 0)| lia..].
    + pose proof (costs_generate_wait max_attempts 0) as H. rewrite Nat.sub_0_r in H. exact H.
    + intros [attempts|r]; [|apply costs_ret]. costs_quiet.
  - intros e. costs_quiet.
Qed.

(** What the function does once its loop is over without a [return]: it
    reads the thread and returns the text of the latest message. *)
Lemma generate_notes_after_wait max_attempts assistant_id file_id (seen : trace) attempts
    value annotations blocks older :
  GenerateNotes.wait_loop runs max_attempts 0 (generate_prelude assistant_id file_id) =
    (inr (Fell_through attempts),
     generate_prelude assistant_id file_id ++ seen) ->
  thread_messages = {| content := TextBlock value annotations :: blocks |} :: older ->
  GenerateNotes.generate_notes_with_assistant_at runs thread_messages max_attempts
    assistant_id file_id [] =
  (inr (Some value),
   generate_prelude assistant_id file_id ++ seen ++ [Print nl; MessagesList]).
Proof.
  intros Hloop Hmsg. rewrite generate_notes_at_unfold. cbn [app]. rewrite try_bind_run, Hloop.
  unfold print. rewrite try_emit. unfold messages_list. rewrite try_bind_run, bind_run.
  unfold emit at 1. cbn [ret]. rewrite Hmsg. cbn [subscript0]. rewrite try_ret.
  cbn [content subscript0]. rewrite try_ret. cbn [text_of]. rewrite try_ret.
  cbn [fst try_except ret]. rewrite <- !app_assoc. reflexivity.
Qed.

(** The success path. *)
Lemma generate_notes_completed max_attempts assistant_id file_id k
    value annotations blocks older :
  k < max_attempts ->
  (forall j, j < k -> not_acted_on (runs j)) ->
  status (runs k) = "completed" ->
  thread_messages = {| content := TextBlock value annotations :: blocks |} :: older ->
  GenerateNotes.generate_notes_with_assistant_at runs thread_messages max_attempts
    assistant_id file_id [] =
  (inr (Some value),
   generate_prelude assistant_id file_id ++ (rounds k ++ [RunsRetrieve]) ++
   [Print nl; MessagesList]).
Proof.
  intros Hk Hpend Hst Hmsg. eapply (generate_notes_after_wait _ _ _ _ k); [|exact Hmsg].
  destruct (prelude_counts_generate assistant_id file_id) as [Hc _].
  rewrite (generate_wait_rounds k max_attempts 0); [|lia|].
  2: { intros j Hj. rewrite Hc. apply Hpend, Hj. }
  cbn [Nat.add]. rewrite generate_wait_unfold. destruct (lt_dec k max_attempts); [|lia].
  rewrite bind_run. unfold runs_retrieve. rewrite checks_app, Hc, checks_rounds. cbn [Nat.add].
  destruct (decide (status (runs k) = "completed")); [|done].
  cbn [ret]. rewrite <- !app_assoc. reflexivity.
Qed.

(** The exhausted path: after [max_attempts] statuses that are neither
    [completed] nor [failed] the function goes on as after [completed]. *)
Lemma generate_notes_exhausted max_attempts assistant_id file_id
    value annotations blocks older :
  (forall j, j < max_attempts -> not_acted_on (runs j)) ->
  thread_messages = {| content := TextBlock value annotations :: blocks |} :: older ->
  GenerateNotes.generate_notes_with_assistant_at runs thread_messages max_attempts
    assistant_id file_id [] =
  (inr (Some value),
   generate_prelude assistant_id file_id ++ rounds max_attempts ++
   [Print nl; MessagesList]).
Proof.
  intros Hpend Hmsg. eapply (generate_notes_after_wait _ _ _ _ max_attempts); [|exact Hmsg].
  destruct (prelude_counts_generate assistant_id file_id) as [Hc _].
  rewrite (generate_wait_rounds max_attempts max_attempts 0); [|lia|].
  2: { intros j Hj. rewrite Hc. apply Hpend, Hj. }
  cbn [Nat.add]. apply generate_wait_exhausted.
Qed.

End GenerateWait.

(** ** The polling claims *)

(** C1, as the code has it: for every [max_attempts >= 1] and every sequence
    of statuses, both wait loops perform at most [max_attempts] status checks
    and at most [max_attempts] sleeps (every check that does not end the loop
    is followed by a sleep, the last one included); with [max_attempts = 3]
    and the statuses running, running, completed the output is returned after
    exactly 3 checks and 2 sleeps. *)
Theorem C1_poll_bounds (runs : nat -> Run) (thread_messages : list Message)
    (files : string -> option string) (max_attempts : nat)
    (assistant_id question : string) (file_id : option string) :
  1 <= max_attempts ->
  (let t := snd (QnA.ask_question_at runs thread_messages files max_attempts
                   assistant_id question file_id []) in
   checks t <= max_attempts /\ sleeps t <= max_attempts) /\
  (let t := snd (GenerateNotes.generate_notes_with_assistant_at runs thread_messages
                   max_attempts assistant_id file_id []) in
   checks t <= max_attempts /\ sleeps t <= max_attempts) /\
  (forall value annotations blocks older,
     status (runs 0) = "running" -> status (runs 1) = "running" ->
     status (runs 2) = "completed" ->
     thread_messages = {| content := TextBlock value annotations :: blocks |} :: older ->
     (exists citations t,
        QnA.ask_question_at runs thread_messages files 3 assistant_id question file_id [] =
          (inr (Some value, Some citations), t) /\
        checks t = 3 /\ sleeps t = 2) /\
     (exists t,
        GenerateNotes.generate_notes_with_assistant_at runs thread_messages 3
          assistant_id file_id [] = (inr (Some value), t) /\
        checks t = 3 /\ sleeps t = 2)).
Proof.
  intros _. split; [apply costs_ask_question_at|]. split; [apply costs_generate_notes_at|].
  intros value annotations blocks older H0 H1 H2 Hmsg.
  assert (Hrun : forall j, j < 2 -> status (runs j) = "running").
  { intros [|[|j]] Hj; [exact H0|exact H1|lia]. }
  split.
  - destruct (ask_question_completed runs thread_messages files 3 assistant_id question
                file_id 2 value annotations blocks older) as (cs & t & Heq & Hc & Hs);
      [lia| |exact H2|exact Hmsg|].
    + intros j Hj. unfold pending. rewrite (Hrun j Hj). repeat split; try discriminate.
      intros Hin. apply elem_of_cons in Hin as [Hin|Hin]; [discriminate|].
      apply elem_of_cons in Hin as [Hin|Hin]; [discriminate|]. apply elem_of_nil in Hin. exact Hin.
    + exists cs, t. split; [exact Heq|]. split; [exact Hc|exact Hs].
  - eexists. split.
    + apply (generate_notes_completed runs thread_messages 3 assistant_id file_id 2
               value annotations blocks older); [lia| |exact H2|exact Hmsg].
      intros j Hj. unfold not_acted_on. rewrite (Hrun j Hj). split; discriminate.
    + destruct (prelude_counts_generate assistant_id file_id) as [Hc Hs].
      rewrite !checks_app, !sleeps_app, Hc, Hs, checks_rounds, sleeps_rounds.
      split; reflexivity.
Qed.

Lemma C1_poll_bounds_witness :
  1 <= 3 /\
  let t := snd (QnA.ask_question_at (script ["running"; "running"] "completed")
                  sample_thread no_files 3 "asst_1" "What is a limit?" None []) in
  checks t <= 3 /\ sleeps t <= 3.
Proof.
  split; [lia|].
  exact (proj1 (C1_poll_bounds (script ["running"; "running"] "completed")
                  sample_thread no_files 3 "asst_1" "What is a limit?" None
                  (le_S 1 2 (le_S 1 1 (le_n 1))))).
Defined.

(** C1 as stated fails: with [max_attempts = 1] and a job that is still
    running, either function checks once and then sleeps once, which is more
    than [max_attempts - 1 = 0] sleeps. *)
Lemma C1_sleeps_after_last_check :
  let t1 := snd (QnA.ask_question_at (script [] "running") sample_thread no_files 1
                   "asst_1" "What is a limit?" None []) in
  let t2 := snd (GenerateNotes.generate_notes_with_assistant_at (script [] "running")
                   sample_thread 1 "asst_1" None []) in
  1 <= 1 /\ checks t1 = 1 /\ sleeps t1 = 1 /\ ~ sleeps t1 <= 1 - 1 /\
  checks t2 = 1 /\ sleeps t2 = 1 /\ ~ sleeps t2 <= 1 - 1.
Proof. vm_compute. repeat split; try reflexivity; lia. Qed.

(** C2 at the failing input: a job that is still [in_progress] at each of
    the 30 checks. [generate_notes_with_assistant] has no test after its
    loop: it reads the thread and returns the text of its latest message,
    and reports no timeout; [ask_question] on the same job reports the
    timeout and returns [(None, None)]. *)
Theorem C2_generate_notes_returns_after_exhaustion :
  GenerateNotes.generate_notes_with_assistant (script [] "in_progress") sample_thread
    "asst_1" None [] =
  (inr (Some "latest message"),
   generate_prelude "asst_1" None ++ rounds 30 ++ [Print nl; MessagesList]) /\
  QnA.ask_question (script [] "in_progress") sample_thread no_files
    "asst_1" "What is a limit?" None [] =
  (inr (None, None),
   ask_prelude "asst_1" "What is a limit?" None ++ rounds 30 ++
   [Print (nl +:+ "Timeout waiting for response")]).
Proof.
  assert (Hstatus : forall j, status (script [] "in_progress" j) = "in_progress").
  { intros [|j]; reflexivity. }
  split.
  - apply (generate_notes_exhausted _ _ 30 "asst_1" None "latest message" None [] []);
      [|reflexivity].
    intros j _. unfold not_acted_on. rewrite Hstatus. split; discriminate.
  - apply ask_question_timeout. intros j _. unfold pending. rewrite Hstatus.
    repeat split; try discriminate. intros Hin.
    apply elem_of_cons in Hin as [Hin|Hin]; [discriminate|].
    apply elem_of_cons in Hin as [Hin|Hin]; [discriminate|]. apply elem_of_nil in Hin. exact Hin.
Qed.

(** C3 at the failing input: a job that is [cancelled] from the first check
    on. The loop of [generate_notes_with_assistant] tests for [completed] and
    [failed] only, so it sleeps and checks again 30 times and then returns
    the text of the latest message; [ask_question] on the same job stops
    right after the first check. *)
Theorem C3_generate_notes_polls_on_after_cancelled :
  (let r := GenerateNotes.generate_notes_with_assistant (script [] "cancelled")
              sample_thread "asst_1" None [] in
   fst r = inr (Some "latest message") /\ checks (snd r) = 30 /\ sleeps (snd r) = 30) /\
  QnA.ask_question (script [] "cancelled") sample_thread no_files
    "asst_1" "What is a limit?" None [] =
  (inr (None, None),
   ask_prelude "asst_1" "What is a limit?" None ++ [RunsRetrieve; Print "Run cancelled"]).
Proof.
  split.
  - vm_compute. repeat split; reflexivity.
  - apply (ask_question_terminal_failure (script [] "cancelled") sample_thread no_files
             30 "asst_1" "What is a limit?" None 0); [lia|intros j Hj; lia|].
    apply elem_of_cons. right. apply elem_of_cons. left. reflexivity.
Qed.



(** ** pydantic's validators *)

Section Validators.

Variable str_as_int : string -> option Z.
Variable float_as_int : float -> option Z.

Lemma check_ge_inr ge z z' :
  Pydantic.check_ge ge z = inr z' -> z' = z /\ forall low, ge = Some low -> (low <= z)%Z.
Proof.
  unfold Pydantic.check_ge. destruct ge as [low|].
  - destruct (decide (low <= z)%Z); [|discriminate]. intros [= <-]. split; [reflexivity|].
    intros ? [= <-]. assumption.
  - intros [= <-]. split; [reflexivity|]. discriminate.
Qed.

(** An accepted integer lies within the declared bounds. *)
Lemma int_validator_bounds ge le input z :
  Pydantic.int_validator str_as_int float_as_int ge le input = inr z ->
  (forall low, ge = Some low -> (low <= z)%Z) /\ (forall high, le = Some high -> (z <= high)%Z).
Proof.
  unfold Pydantic.int_validator.
  match goal with |- match ?c with _ => _ end = _ -> _ => destruct c as [es|z0] end;
    [discriminate|].
  destruct le as [high|].
  - destruct (decide (z0 <= high)%Z); [|discriminate]. intros H.
    apply check_ge_inr in H as [-> H]. split; [exact H|]. intros ? [= <-]. assumption.
  - intros H. apply check_ge_inr in H as [-> H]. split; [exact H|]. discriminate.
Qed.

(** A Python [int] within the bounds is accepted as it is. *)
Lemma int_validator_int ge le z :
  (forall low, ge = Some low -> (low <= z)%Z) ->
  (forall high, le = Some high -> (z <= high)%Z) ->
  Pydantic.int_validator str_as_int float_as_int ge le (PyInt z) = inr z.
Proof.
  intros Hge Hle. unfold Pydantic.int_validator, Pydantic.check_ge.
  destruct le as [high|], ge as [low|];
    repeat match goal with
           | |- context [decide ?P] => destruct (decide P) as [?|Hn]
           end; try reflexivity; exfalso; apply Hn; auto.
Qed.

Lemma str_validator_bounds min_length max_length input s :
  Pydantic.str_validator min_length max_length input = inr s ->
  input = PyStr s /\
  (forall m, min_length = Some m -> m <= String.length s) /\
  (forall m, max_length = Some m -> String.length s <= m).
Proof.
  unfold Pydantic.str_validator. destruct input as [| | | |s'| |]; try discriminate.
  destruct (Pydantic.falls_short _ _) eqn:Hshort; [discriminate|].
  destruct (Pydantic.exceeds _ _) eqn:Hlong; [discriminate|]. intros [= <-].
  split; [reflexivity|]. split; intros m ->; unfold Pydantic.falls_short, Pydantic.exceeds in *.
  - apply Nat.ltb_ge in Hshort. exact Hshort.
  - apply Nat.ltb_ge in Hlong. exact Hlong.
Qed.

Lemma str_validator_str min_length max_length s :
  (forall m, min_length = Some m -> m <= String.length s) ->
  (forall m, max_length = Some m -> String.length s <= m) ->
  Pydantic.str_validator min_length max_length (PyStr s) = inr s.
Proof.
  intros Hmin Hmax. unfold Pydantic.str_validator.
  replace (Pydantic.falls_short (String.length s) min_length) with false.
  - replace (Pydantic.exceeds (String.length s) max_length) with false; [reflexivity|].
    destruct max_length as [m|]; [|reflexivity]. symmetry. apply Nat.ltb_ge. auto.
  - destruct min_length as [m|]; [|reflexivity]. symmetry. apply Nat.ltb_ge. auto.
Qed.

(** An accepted field was read from its key, or took its default. *)
Lemma field_inr {A} name dflt (validator : pyobj -> Pydantic.result A) data a :
  Pydantic.field name dflt validator data = inr a ->
  (exists input, data !! name = Some input /\ validator input = inr a) \/
  (data !! name = None /\ dflt = Some a).
Proof.
  unfold Pydantic.field. destruct (data !! name) as [input|].
  - destruct (validator input) as [es|a'] eqn:Hv; [discriminate|]. intros [= <-].
    left. exists input. split; [reflexivity|exact Hv].
  - destruct dflt as [d|]; [|discriminate]. intros [= <-]. right. split; reflexivity.
Qed.

Section Items.

Context {A : Type} (item_validator : pyobj -> Pydantic.result A).

(** A list that validates: no error was collected, every item validated,
    and the list is not longer than [max_length]. *)
Lemma validate_to_vec_inr max_length actual_length items :
  (forall item, item_validator item <> inl []) ->
  forall index output errors result,
  (forall m, max_length = Some m -> index <= m) ->
  Pydantic.validate_to_vec item_validator max_length actual_length index items output errors
    = inr result ->
  errors = [] /\
  (exists new, result = output ++ new /\
               Forall2 (fun item a => item_validator item = inr a) items new) /\
  (forall m, max_length = Some m -> index + length items <= m).
Proof.
  intros Hsome.
  induction items as [|item rest IH]; intros index output errors result Hindex;
    cbn [Pydantic.validate_to_vec].
  - destruct errors; [|discriminate]. intros [= <-]. split; [reflexivity|]. split.
    + exists []. split; [symmetry; apply app_nil_r|constructor].
    + intros m Hm. cbn [length]. rewrite Nat.add_0_r. apply Hindex, Hm.
  - destruct (Pydantic.exceeds (S index) max_length) eqn:Hlong; [discriminate|].
    assert (Hnext : forall m, max_length = Some m -> S index <= m).
    { intros m ->. unfold Pydantic.exceeds in Hlong. apply Nat.ltb_ge in Hlong. exact Hlong. }
    destruct (item_validator item) as [es|a] eqn:Hitem; intros Hrun;
      apply IH in Hrun as (Herr & (new & -> & Hall) & Hlen); try exact Hnext.
    + exfalso. destruct es as [|e es]; [exact (Hsome item Hitem)|].
      clear -Herr. destruct errors; discriminate.
    + split; [exact Herr|]. split.
      * exists (a :: new). split; [rewrite <- app_assoc; reflexivity|].
        constructor; assumption.
      * intros m Hm. specialize (Hlen m Hm). cbn [length]. lia.
Qed.

(** A list longer than [max_length] fails with [too_long], whatever its
    items are. *)
Lemma validate_to_vec_too_long m actual_length items :
  forall index output errors,
  index <= m -> m < index + length items ->
  Pydantic.validate_to_vec item_validator (Some m) actual_length index items output errors
    = Pydantic.fail (TooLong m actual_length).
Proof.
  induction items as [|item rest IH]; intros index output errors Hindex Hlen;
    cbn [Pydantic.validate_to_vec length] in *; [lia|].
  cbn [Pydantic.exceeds]. destruct (Nat.ltb_spec m (S index)) as [Hlt|Hge]; [reflexivity|].
  destruct (item_validator item); apply IH; lia.
Qed.

(** A list of valid items within [max_length] validates to their values. *)
Lemma validate_to_vec_valid max_length actual_length items :
  forall new index output,
  Forall2 (fun item a => item_validator item = inr a) items new ->
  (forall m, max_length = Some m -> index + length items <= m) ->
  Pydantic.validate_to_vec item_validator max_length actual_length index items output []
    = inr (output ++ new).
Proof.
  induction items as [|item rest IH]; intros new index output Hall Hlen;
    inversion Hall as [|? a ? new' Hitem Hrest]; subst; cbn [Pydantic.validate_to_vec].
  - rewrite app_nil_r. reflexivity.
  - replace (Pydantic.exceeds (S index) max_length) with false.
    + rewrite Hitem, (IH new' (S index) (output ++ [a]) Hrest).
      * rewrite <- app_assoc. reflexivity.
      * intros m Hm. specialize (Hlen m Hm). cbn [length] in Hlen. lia.
    + destruct max_length as [m|]; [|reflexivity]. symmetry. apply Nat.ltb_ge.
      specialize (Hlen m eq_refl). cbn [length] in Hlen. lia.
Qed.

End Items.

End Validators.

(** ** The notes schema *)

Section NotesSchema.

Variable str_as_int : string -> option Z.
Variable float_as_int : float -> option Z.

Notation Note_validate := (GenerateNotes.Note_validate str_as_int float_as_int).
Notation NotesResponse_validate :=
  (GenerateNotes.NotesResponse_validate str_as_int float_as_int).

Lemma int_validator_some_error ge le input :
  Pydantic.int_validator str_as_int float_as_int ge le input <> inl [].
Proof.
  unfold Pydantic.int_validator, Pydantic.check_ge, Pydantic.fail.
  destruct input as [|b|z|f|s|l|d]; try discriminate;
    repeat match goal with
           | |- context [float_as_int ?f] => destruct (float_as_int f)
           | |- context [str_as_int ?s] => destruct (str_as_int s)
           | |- context [match ?o with Some _ => _ | None => _ end] => destruct o
           | |- context [decide ?P] => destruct (decide P)
           end; discriminate.
Qed.

Lemma str_validator_some_error min_length max_length input :
  Pydantic.str_validator min_length max_length input <> inl [].
Proof.
  unfold Pydantic.str_validator, Pydantic.fail. destruct input; try discriminate.
  destruct (Pydantic.falls_short _ _); [discriminate|].
  destruct (Pydantic.exceeds _ _); discriminate.
Qed.

Lemma nullable_some_error {A} (validator : pyobj -> Pydantic.result A) input :
  (forall i, validator i <> inl []) -> Pydantic.nullable validator input <> inl [].
Proof.
  intros Hv. unfold Pydantic.nullable.
  destruct input; try discriminate;
    match goal with |- context [validator ?i] =>
      specialize (Hv i); destruct (validator i) as [[|e es]|a] end;
    congruence.
Qed.

Lemma field_some_error {A} name dflt (validator : pyobj -> Pydantic.result A) data :
  (forall i, validator i <> inl []) -> Pydantic.field name dflt validator data <> inl [].
Proof.
  intros Hv. unfold Pydantic.field. destruct (data !! name) as [input|].
  - specialize (Hv input).
    destruct (validator input) as [[|e es]|a]; [now elim Hv|cbn; discriminate|discriminate].
  - destruct dflt; discriminate.
Qed.

Lemma Note_validate_some_error input : Note_validate input <> inl [].
Proof.
  unfold GenerateNotes.Note_validate. destruct input as [| | | | | |data]; try discriminate.
  cbv zeta.
  pose proof (field_some_error "id" None _ data (int_validator_some_error (Some 1%Z) (Some 10%Z))) as H1.
  pose proof (field_some_error "heading" None _ data (str_validator_some_error (Some 1) (Some 100))) as H2.
  pose proof (field_some_error "summary" None _ data (str_validator_some_error None (Some 150))) as H3.
  pose proof (field_some_error "page_ref" (Some None) _ data
                (fun i => nullable_some_error _ i (int_validator_some_error None None))) as H4.
  destruct (Pydantic.field "id" _ _ data) as [[|e1 es1]|i];
    destruct (Pydantic.field "heading" _ _ data) as [[|e2 es2]|h];
    destruct (Pydantic.field "summary" _ _ data) as [[|e3 es3]|s];
    destruct (Pydantic.field "page_ref" _ _ data) as [[|e4 es4]|p];
    try congruence; cbn; discriminate.
Qed.

(** An accepted element is a dict whose fields are within the stated
    bounds. *)
Lemma Note_validate_inr input n :
  Note_validate input = inr n -> (exists data, input = PyDict data) /\ within_bounds n.
Proof.
  unfold GenerateNotes.Note_validate. destruct input as [| | | | | |data]; try discriminate.
  cbv zeta.
  destruct (Pydantic.field "id" _ _ data) as [es1|i] eqn:Hid;
    destruct (Pydantic.field "heading" _ _ data) as [es2|h] eqn:Hheading;
    destruct (Pydantic.field "summary" _ _ data) as [es3|s] eqn:Hsummary;
    destruct (Pydantic.field "page_ref" _ _ data) as [es4|p] eqn:Hpage;
    try discriminate.
  intros [= <-]. split; [exists data; reflexivity|].
  apply field_inr in Hid as [(v & _ & Hv)|[_ [=]]].
  apply field_inr in Hheading as [(v2 & _ & Hv2)|[_ [=]]].
  apply field_inr in Hsummary as [(v3 & _ & Hv3)|[_ [=]]].
  apply int_validator_bounds in Hv as [Hge Hle].
  apply str_validator_bounds in Hv2 as (_ & Hmin & Hmax).
  apply str_validator_bounds in Hv3 as (_ & _ & Hmax3).
  unfold within_bounds. cbn.
  specialize (Hge _ eq_refl). specialize (Hle _ eq_refl).
  specialize (Hmin _ eq_refl). specialize (Hmax _ eq_refl). specialize (Hmax3 _ eq_refl).
  lia.
Qed.

(** A dict that carries a note within the bounds validates to that note,
    whatever else it holds. *)
Lemma Note_validate_carries data n :
  carries data n -> within_bounds n -> Note_validate (PyDict data) = inr n.
Proof.
  intros (Hid & Hheading & Hsummary & Hpage) (Hi & Hh & Hs).
  unfold GenerateNotes.Note_validate, Pydantic.field. cbv zeta.
  rewrite Hid, Hheading, Hsummary.
  rewrite int_validator_int; [| intros ? [= <-]; lia | intros ? [= <-]; lia].
  rewrite str_validator_str; [| intros ? [= <-]; lia | intros ? [= <-]; lia].
  rewrite str_validator_str; [| discriminate | intros ? [= <-]; lia].
  destruct n as [i h s [z|]]; cbn in *.
  - rewrite Hpage. cbn [Pydantic.nullable].
    rewrite int_validator_int; [reflexivity|discriminate|discriminate].
  - destruct Hpage as [-> | ->]; reflexivity.
Qed.

(** A key outside the schema does not change what a dict carries. *)
Lemma carries_insert_other data n k v :
  k ∉ ["id"; "heading"; "summary"; "page_ref"] ->
  carries data n -> carries (<[ k := v ]> data) n.
Proof.
  intros Hk (Hid & Hheading & Hsummary & Hpage).
  assert (Hne : forall name, name ∈ ["id"; "heading"; "summary"; "page_ref"] ->
                             <[ k := v ]> data !! name = data !! name).
  { intros name Hin. apply lookup_insert_ne. intros ->. contradiction. }
  unfold carries.
  rewrite (Hne "id"), (Hne "heading"), (Hne "summary"), (Hne "page_ref");
    [repeat split; assumption|..];
    repeat (apply elem_of_cons; first [left; reflexivity | right]).
Qed.

End NotesSchema.

(** ** [NotesResponse] and [validate_and_create_notes] *)

Section NotesValidation.

Variable json_loads : string -> exn + pyobj.
Variable str_as_int : string -> option Z.
Variable float_as_int : float -> option Z.

Notation Note_validate := (GenerateNotes.Note_validate str_as_int float_as_int).
Notation NotesResponse_validate :=
  (GenerateNotes.NotesResponse_validate str_as_int float_as_int).
Notation validate_and_create_notes :=
  (GenerateNotes.validate_and_create_notes json_loads str_as_int float_as_int).

(** An accepted response comes from a [notes] array of exactly 10 items,
    each of which validates to the note at its position. *)
Lemma NotesResponse_validate_inr data r :
  NotesResponse_validate data = inr r ->
  exists items, data !! "notes" = Some (PyList items) /\ length items = 10 /\
                Forall2 (fun item n => Note_validate item = inr n) items (GenerateNotes.notes r).
Proof.
  unfold GenerateNotes.NotesResponse_validate.
  destruct (Pydantic.field "notes" _ _ data) as [es|l] eqn:Hfield; [discriminate|].
  intros [= <-]. cbn [GenerateNotes.notes].
  apply field_inr in Hfield as [(input & Hlookup & Hlist)|[_ [=]]].
  unfold Pydantic.list_validator in Hlist. destruct input as [| | | | |items|]; try discriminate.
  destruct (Pydantic.validate_to_vec _ _ _ _ _ _ _) as [es|output] eqn:Hvec; [discriminate|].
  destruct (Pydantic.falls_short _ _) eqn:Hshort; [discriminate|].
  injection Hlist as <-. unfold Pydantic.falls_short in Hshort. apply Nat.ltb_ge in Hshort.
  apply validate_to_vec_inr in Hvec as (_ & (new & -> & Hall) & Hlen).
  - exists items. split; [exact Hlookup|]. cbn [app] in *.
    specialize (Hlen 10 eq_refl). apply Forall2_length in Hall as Hsame.
    split; [lia|exact Hall].
  - apply Note_validate_some_error.
  - intros m [= <-]. lia.
Qed.

Lemma NotesResponse_validate_accepts data items ns :
  data !! "notes" = Some (PyList items) ->
  Forall2 (fun item n => Note_validate item = inr n) items ns ->
  length ns = 10 ->
  NotesResponse_validate data = inr {| GenerateNotes.notes := ns |}.
Proof.
  intros Hlookup Hall Hlen. apply Forall2_length in Hall as Hsame.
  unfold GenerateNotes.NotesResponse_validate, Pydantic.field. rewrite Hlookup.
  unfold Pydantic.list_validator.
  rewrite (validate_to_vec_valid _ _ _ _ ns 0 [] Hall); [|intros m [= <-]; cbn; lia].
  cbn [app Pydantic.falls_short]. rewrite Hlen. reflexivity.
Qed.

(** More than 10 items: [too_long], carrying the length, whatever the
    items are. *)
Lemma NotesResponse_validate_too_long data items :
  data !! "notes" = Some (PyList items) -> 10 < length items ->
  NotesResponse_validate data =
  inl [LineError [LocField "notes"] (TooLong 10 (length items))].
Proof.
  intros Hlookup Hlen.
  unfold GenerateNotes.NotesResponse_validate, Pydantic.field. rewrite Hlookup.
  unfold Pydantic.list_validator. rewrite validate_to_vec_too_long; [reflexivity|lia|cbn; lia].
Qed.

(** Fewer than 10 items, all of them valid: [too_short], carrying the
    length. *)
Lemma NotesResponse_validate_too_short data items :
  data !! "notes" = Some (PyList items) -> length items < 10 ->
  Forall (fun item => exists n, Note_validate item = inr n) items ->
  NotesResponse_validate data =
  inl [LineError [LocField "notes"] (TooShort 10 (length items))].
Proof.
  intros Hlookup Hlen Hvalid.
  assert (exists ns, Forall2 (fun item n => Note_validate item = inr n) items ns) as [ns Hall].
  { clear -Hvalid. induction Hvalid as [|item rest [n Hn] _ [ns IH]].
    - exists []. constructor.
    - exists (n :: ns). constructor; assumption. }
  apply Forall2_length in Hall as Hsame.
  unfold GenerateNotes.NotesResponse_validate, Pydantic.field. rewrite Hlookup.
  unfold Pydantic.list_validator.
  rewrite (validate_to_vec_valid _ _ _ _ ns 0 [] Hall); [|intros m [= <-]; cbn; lia].
  cbn [app Pydantic.falls_short]. rewrite <- Hsame.
  destruct (Nat.ltb_spec (length items) 10); [reflexivity|lia].
Qed.

(** Any length but 10 is refused. *)
Lemma NotesResponse_validate_wrong_length data items :
  data !! "notes" = Some (PyList items) -> length items <> 10 ->
  exists es, NotesResponse_validate data = inl es.
Proof.
  intros Hlookup Hlen. destruct (NotesResponse_validate data) as [es|r] eqn:Hrun.
  - exists es. reflexivity.
  - apply NotesResponse_validate_inr in Hrun as (items' & Hlookup' & Hlen' & _).
    rewrite Hlookup in Hlookup'. injection Hlookup' as <-. contradiction.
Qed.

(** The three ways [validate_and_create_notes] can go on a parsed dict or
    on a parser failure. *)
Lemma validate_accepted json_content data r t :
  json_loads json_content = inr (PyDict data) ->
  NotesResponse_validate data = inr r ->
  validate_and_create_notes json_content t = (inr (Some (GenerateNotes.notes r)), t).
Proof.
  intros Hparse Hvalid.
  unfold GenerateNotes.validate_and_create_notes, GenerateNotes.NotesResponse_init.
  rewrite Hparse, try_ret, Hvalid. reflexivity.
Qed.

Lemma validate_refused json_content data es t :
  json_loads json_content = inr (PyDict data) ->
  NotesResponse_validate data = inl es ->
  validate_and_create_notes json_content t =
  (inr None, t ++ [PrintExn "Validation error: " (ValidationError es)]).
Proof.
  intros Hparse Hvalid.
  unfold GenerateNotes.validate_and_create_notes, GenerateNotes.NotesResponse_init.
  rewrite Hparse, try_ret, Hvalid. reflexivity.
Qed.


(** Notes are returned only through the first of the three. *)
Lemma validate_some_inv json_content t ns t' :
  validate_and_create_notes json_content t = (inr (Some ns), t') ->
  exists data r, json_loads json_content = inr (PyDict data) /\
                 NotesResponse_validate data = inr r /\ ns = GenerateNotes.notes r /\ t' = t.
Proof.
  unfold GenerateNotes.validate_and_create_notes, GenerateNotes.NotesResponse_init.
  destruct (json_loads json_content) as [e|data] eqn:Hparse.
  - destruct e; discriminate.
  - rewrite try_ret. destruct data as [| | | | | |d]; try discriminate.
    destruct (NotesResponse_validate d) as [es|r] eqn:Hvalid; [discriminate|].
    intros [= <- <-]. exists d, r. repeat split; try reflexivity; assumption.
Qed.

(** The call never raises, only prints, and what it returns and prints
    does not depend on what happened before. *)
Lemma validate_outcome json_content :
  exists result out, Forall (fun e => is_console e = true) out /\
    forall t, validate_and_create_notes json_content t = (inr result, t ++ out).
Proof.
  destruct (json_loads json_content) as [e|data] eqn:Hparse.
  - exists None, [PrintExn match e with
                          | JSONDecodeError _ => "Invalid JSON: "
                          | ValidationError _ => "Validation error: "
                          | _ => "Error creating notes: "
                          end e].
    split; [repeat constructor|]. intros t.
    unfold GenerateNotes.validate_and_create_notes. rewrite Hparse.
    destruct e; reflexivity.
  - destruct data as [| | | | | |d].
    1-6: exists None, [PrintExn "Error creating notes: "
                         (TypeError "argument after ** must be a mapping")];
         (split; [repeat constructor|]); intros t;
         unfold GenerateNotes.validate_and_create_notes; rewrite Hparse; reflexivity.
    destruct (NotesResponse_validate d) as [es|r] eqn:Hvalid.
    + exists None, [PrintExn "Validation error: " (ValidationError es)].
      split; [repeat constructor|]. intros t. apply (validate_refused _ d); assumption.
    + exists (Some (GenerateNotes.notes r)), []. split; [constructor|].
      intros t. rewrite app_nil_r. apply (validate_accepted _ d); assumption.
Qed.

End NotesValidation.

(** ** The validation claims *)

(** C4, as the code has it: notes are returned only for a top-level object
    whose [notes] is an array of exactly 10 elements. For any other length
    [n] validation fails and returns nothing; the error reported is the
    wrong-arity error carrying [n] when [n > 10], or when every element is
    itself a valid note. *)
Theorem C4_wrong_arity (json_loads : string -> exn + pyobj)
    (str_as_int : string -> option Z) (float_as_int : float -> option Z)
    (json_content : string) (t : trace) :
  (forall ns t',
     GenerateNotes.validate_and_create_notes json_loads str_as_int float_as_int
       json_content t = (inr (Some ns), t') ->
     exists data items, json_loads json_content = inr (PyDict data) /\
                        data !! "notes" = Some (PyList items) /\ length items = 10) /\
  (forall data items,
     json_loads json_content = inr (PyDict data) ->
     data !! "notes" = Some (PyList items) ->
     length items <> 10 ->
     exists es,
       GenerateNotes.validate_and_create_notes json_loads str_as_int float_as_int
         json_content t =
       (inr None, t ++ [PrintExn "Validation error: " (ValidationError es)]) /\
       (10 < length items \/
        Forall (fun item => exists n,
                  GenerateNotes.Note_validate str_as_int float_as_int item = inr n) items ->
        wrong_arity (length items) es)).
Proof.
  split.
  - intros ns t' Hrun.
    apply validate_some_inv in Hrun as (data & r & Hparse & Hvalid & _ & _).
    apply NotesResponse_validate_inr in Hvalid as (items & Hlookup & Hlen & _).
    exists data, items. repeat split; assumption.
  - intros data items Hparse Hlookup Hlen.
    destruct (NotesResponse_validate_wrong_length str_as_int float_as_int data items
                Hlookup Hlen) as [es Hes].
    exists es. split; [apply (validate_refused _ _ _ _ data); assumption|].
    intros [Hlong|Hvalid].
    + right. rewrite (NotesResponse_validate_too_long _ _ _ _ Hlookup Hlong) in Hes.
      congruence.
    + destruct (Nat.lt_total (length items) 10) as [Hshort|[Heq|Hlong]]; [|contradiction|].
      * left. rewrite (NotesResponse_validate_too_short _ _ _ _ Hlookup Hshort Hvalid) in Hes.
        congruence.
      * right. rewrite (NotesResponse_validate_too_long _ _ _ _ Hlookup Hlong) in Hes.
        congruence.
Qed.

Lemma C4_wrong_arity_witness :
  let json_loads := loads_only (notes_text []) (PyDict (notes_dict [])) in
  json_loads (notes_text []) = inr (PyDict (notes_dict [])) /\
  notes_dict [] !! "notes" = Some (PyList []) /\
  length (@nil pyobj) <> 10 /\
  GenerateNotes.validate_and_create_notes json_loads no_str_as_int no_float_as_int
    (notes_text []) [] =
  (inr None,
   [PrintExn "Validation error: "
      (ValidationError [LineError [LocField "notes"] (TooShort 10 0)])]).
Proof.
  split; [reflexivity|]. split; [reflexivity|]. split; [discriminate|].
  destruct (proj2 (C4_wrong_arity (loads_only (notes_text []) (PyDict (notes_dict [])))
                     no_str_as_int no_float_as_int (notes_text []) [])
              (notes_dict []) [] eq_refl eq_refl ltac:(discriminate))
    as (es & Hrun & Harity).
  rewrite Hrun. destruct (Harity (or_intror (List.Forall_nil _))) as [-> | ->].
  - reflexivity.
  - vm_compute in Hrun. discriminate Hrun.
Defined.

(** C4 as stated fails: an array of one element that is not a valid note
    ([n = 1]) is refused with the errors of that element, and no wrong-arity
    error carrying 1 is reported. *)
Lemma C4_invalid_item_hides_arity :
  let text := notes_text ["{}"] in
  let run := GenerateNotes.validate_and_create_notes
               (loads_only text (PyDict (notes_dict [PyDict ∅])))
               no_str_as_int no_float_as_int text [] in
  length [PyDict ∅] <> 10 /\
  exists es, run = (inr None, [PrintExn "Validation error: " (ValidationError es)]) /\
             ~ wrong_arity 1 es.
Proof.
  split; [discriminate|]. eexists. split; [vm_compute; reflexivity|].
  intros [H|H]; discriminate H.
Qed.






(** C7: for every text the call returns a value and prints a list of lines
    that depend on the text only, not on what was done before; it performs
    console output and no other effect (no API call, no sleep); a second call
    on the same text returns what the first returned. *)
Theorem C7_pure_and_idempotent (json_loads : string -> exn + pyobj)
    (str_as_int : string -> option Z) (float_as_int : float -> option Z)
    (json_content : string) :
  exists result out,
    Forall (fun e => is_console e = true) out /\
    (forall t,
       GenerateNotes.validate_and_create_notes json_loads str_as_int float_as_int
         json_content t = (inr result, t ++ out)) /\
    (forall t,
       let first := GenerateNotes.validate_and_create_notes json_loads str_as_int
                      float_as_int json_content t in
       let second := GenerateNotes.validate_and_create_notes json_loads str_as_int
                       float_as_int json_content (snd first) in
       fst second = fst first /\ snd second = snd first ++ out).
Proof.
  destruct (validate_outcome json_loads str_as_int float_as_int json_content)
    as (result & out & Hconsole & Hrun).
  exists result, out. split; [exact Hconsole|]. split; [exact Hrun|].
  intros t. cbv zeta. rewrite (Hrun t). cbn [fst snd]. rewrite (Hrun (t ++ out)).
  split; reflexivity.
Qed.

(** C8, as the code has it: every list of notes the call returns has
    length 10 and every id in it lies in 1..10; the ids are bounded one by
    one and nothing compares them with each other. *)
Theorem C8_ten_notes_ids_in_range (json_loads : string -> exn + pyobj)
    (str_as_int : string -> option Z) (float_as_int : float -> option Z)
    (json_content : string) (t t' : trace) (ns : list GenerateNotes.Note) :
  GenerateNotes.validate_and_create_notes json_loads str_as_int float_as_int json_content t =
    (inr (Some ns), t') ->
  length ns = 10 /\ Forall (fun n => (1 <= GenerateNotes.id n <= 10)%Z) ns.
Proof.
  intros Hrun. apply validate_some_inv in Hrun as (data & r & _ & Hvalid & -> & _).
  apply NotesResponse_validate_inr in Hvalid as (items & _ & Hlen & Hall).
  apply Forall2_length in Hall as Hsame. split; [lia|].
  clear -Hall. induction Hall as [|item n items ns Hitem _ IH]; constructor; [|exact IH].
  apply Note_validate_inr in Hitem as [_ (Hid & _)]. exact Hid.
Qed.

Lemma C8_ten_notes_ids_in_range_witness :
  let run := GenerateNotes.validate_and_create_notes
               (loads_only duplicate_ids_text (PyDict duplicate_ids))
               no_str_as_int no_float_as_int duplicate_ids_text [] in
  let ns := map (fun id => sample_note id 42) [1; 1; 3; 4; 5; 6; 7; 8; 9; 10]%Z in
  run = (inr (Some ns), []) /\
  length ns = 10 /\ Forall (fun n => (1 <= GenerateNotes.id n <= 10)%Z) ns.
Proof.
  assert (Hrun : GenerateNotes.validate_and_create_notes
                   (loads_only duplicate_ids_text (PyDict duplicate_ids))
                   no_str_as_int no_float_as_int duplicate_ids_text [] =
                 (inr (Some (map (fun id => sample_note id 42)
                               [1; 1; 3; 4; 5; 6; 7; 8; 9; 10]%Z)), [])).
  { vm_compute. reflexivity. }
  split; [exact Hrun|].
  exact (C8_ten_notes_ids_in_range _ _ _ _ _ _ _ Hrun).
Defined.

(** C8 as stated fails: ten notes of which two have id 1 are accepted. *)
Lemma C8_duplicate_ids_accepted :
  let ns := map (fun id => sample_note id 42) [1; 1; 3; 4; 5; 6; 7; 8; 9; 10]%Z in
  GenerateNotes.validate_and_create_notes
    (loads_only duplicate_ids_text (PyDict duplicate_ids))
    no_str_as_int no_float_as_int duplicate_ids_text [] = (inr (Some ns), []) /\
  ~ NoDup (map GenerateNotes.id ns).
Proof.
  split; [vm_compute; reflexivity|].
  intros Hnodup. apply NoDup_cons in Hnodup as [Hnotin _].
  apply Hnotin. apply elem_of_cons. left. reflexivity.
Qed.



(** * Further properties of the two scripts *)

(** ** What a computation returns *)

Section Post.

Context {A B : Type}.

Lemma post_ret (a : A) (Q : A -> Prop) : Q a -> post (ret a) Q.
Proof. intros H t r t' [= <- _]. exact H. Qed.

Lemma post_raise (e : exn) (Q : A -> Prop) : post (raise e) Q.
Proof. intros t r t' [=]. Qed.

Lemma post_bind (m : M A) (k : A -> M B) (Q1 : A -> Prop) (Q2 : B -> Prop) :
  post m Q1 -> (forall a, Q1 a -> post (k a) Q2) -> post (bind m k) Q2.
Proof.
  intros Hm Hk t r t'. rewrite bind_run. destruct (m t) as [[e|a] t1] eqn:Hrun; [discriminate|].
  apply (Hk a); apply (Hm t a t1 Hrun).
Qed.

Lemma post_weaken (m : M A) (Q Q' : A -> Prop) :
  post m Q -> (forall a, Q a -> Q' a) -> post m Q'.
Proof. intros Hm HQ t r t' Hrun. apply HQ, (Hm t r t' Hrun). Qed.

(** A [try] whose handler always returns never raises, and returns what
    the body or the handler returns. *)
Lemma try_except_returns (m : M A) (h : exn -> M A) (Q : A -> Prop) :
  post m Q ->
  (forall e t, exists r t', h e t = (inr r, t') /\ Q r) ->
  forall t, exists r t', try_except m h t = (inr r, t') /\ Q r.
Proof.
  intros Hm Hh t. unfold try_except. destruct (m t) as [[e|a] t1] eqn:Hrun.
  - apply Hh.
  - exists a, t1. split; [reflexivity|]. apply (Hm t a t1 Hrun).
Qed.

End Post.

Lemma post_emit (e : event) (Q : unit -> Prop) : Q tt -> post (emit e) Q.
Proof. intros H t [] t' _. exact H. Qed.

Section AskQuestionReturns.

Variable runs : nat -> Run.
Variable thread_messages : list Message.
Variable files : string -> option string.

(** The loop of [ask_question] is left by its end, or by [return None, None]. *)
Lemma post_ask_wait max_attempts attempts :
  post (QnA.wait_loop runs max_attempts attempts)
       (fun exit => exit = Returned (None, None) \/ exists n, exit = Fell_through n).
Proof.
  remember (max_attempts - attempts) as n eqn:Hn.
  revert attempts Hn. induction n as [|n IH]; intros attempts Hn;
    rewrite ask_wait_unfold; destruct (lt_dec attempts max_attempts); try lia;
    try (apply post_ret; right; eexists; reflexivity).
  eapply post_bind with (Q1 := fun _ => True); [intros ? ? ? _; exact I|]. intros run _.
  destruct (decide (status run = "completed")); [apply post_ret; right; eexists; reflexivity|].
  destruct (decide (status run = "failed"));
    [eapply post_bind with (Q1 := fun _ => True);
       [intros ? ? ? _; exact I|intros _ _; apply post_ret; left; reflexivity]|].
  destruct (decide (status run ∈ ["cancelled"; "expired"]));
    [eapply post_bind with (Q1 := fun _ => True);
       [intros ? ? ? _; exact I|intros _ _; apply post_ret; left; reflexivity]|].
  eapply post_bind with (Q1 := fun _ => True); [intros ? ? ? _; exact I|]. intros _ _.
  eapply post_bind with (Q1 := fun _ => True); [intros ? ? ? _; exact I|]. intros _ _.
  apply IH. lia.
Qed.

Lemma post_any {A} (m : M A) : post m (fun _ => True).
Proof. intros t r t' _. exact I. Qed.

(** Whatever [ask_question] returns is [None, None] or the latest text of
    the thread with citations. *)
Lemma post_ask_question_body max_attempts :
  post (exit <- QnA.wait_loop runs max_attempts 0 ;;
        match exit with
        | Returned r => ret r
        | Fell_through attempts =>
            if decide (max_attempts <= attempts) then
              print (nl +:+ "Timeout waiting for response") ;;
              ret (None, None)
            else
              print nl ;;
              messages <- messages_list thread_messages ;;
              response_message <- subscript0 messages ;;
              answer <- match content response_message with
                        | block :: _ => text <- text_of block ;; ret (fst text)
                        | [] => ret "No response received"
                        end ;;
              block <- subscript0 (content response_message) ;;
              text <- text_of block ;;
              citations <- match snd text with
                           | Some annotations =>
                               QnA.collect_citations files annotations []
                           | None => ret []
                           end ;;
              ret (Some answer, Some citations)
        end)
       (fun r => r = (None, None) \/
                 exists answer citations,
                   r = (Some answer, Some citations) /\
                   latest_text thread_messages = Some answer).
Proof.
  eapply post_bind; [apply post_ask_wait|]. intros exit [-> | [n ->]].
  { apply post_ret. left. reflexivity. }
  destruct (decide (max_attempts <= n)).
  { eapply post_bind; [apply post_any|]. intros _ _. apply post_ret. left. reflexivity. }
  eapply post_bind; [apply post_any|]. intros _ _.
  eapply post_bind with (Q1 := fun ms => ms = thread_messages).
  { unfold messages_list. eapply post_bind; [apply post_any|]. intros _ _.
    apply post_ret. reflexivity. }
  intros ms ->. destruct thread_messages as [|[[|[value annotations|] blocks]] older];
    cbn [subscript0 content].
  - eapply post_bind with (Q1 := fun _ => False); [apply post_raise|]. intros ? [].
  - eapply post_bind with (Q1 := fun m => m = {| content := [] |}); [apply post_ret; reflexivity|].
    intros ? ->. cbn [content]. eapply post_bind; [apply post_any|]. intros answer _.
    cbn [subscript0]. eapply post_bind with (Q1 := fun _ => False); [apply post_raise|]. intros ? [].
  - eapply post_bind with (Q1 := fun m => m = {| content := TextBlock value annotations :: blocks |});
      [apply post_ret; reflexivity|].
    intros ? ->. cbn [content text_of].
    eapply post_bind with (Q1 := fun a => a = value).
    { eapply post_bind with (Q1 := fun x => x = (value, annotations)); [apply post_ret; reflexivity|].
      intros ? ->. apply post_ret. reflexivity. }
    intros ? ->. cbn [subscript0].
    eapply post_bind; [apply post_any|]. intros block _.
    eapply post_bind; [apply post_any|]. intros text _.
    eapply post_bind; [apply post_any|]. intros citations _.
    apply post_ret. right. exists value, citations. split; reflexivity.
  - eapply post_bind with (Q1 := fun m => m = {| content := ImageBlock :: blocks |});
      [apply post_ret; reflexivity|].
    intros ? ->. cbn [content text_of].
    eapply post_bind with (Q1 := fun _ => False); [|intros ? []].
    eapply post_bind with (Q1 := fun _ => False); [apply post_raise|]. intros ? [].
Qed.

Lemma ask_question_result max_attempts assistant_id question file_id t :
  exists r t',
    QnA.ask_question_at runs thread_messages files max_attempts
      assistant_id question file_id t = (inr r, t') /\
    (r = (None, None) \/
     exists answer citations,
       r = (Some answer, Some citations) /\ latest_text thread_messages = Some answer).
Proof.
  rewrite ask_question_at_unfold. apply try_except_returns.
  - apply post_ask_question_body.
  - intros e t0. eexists _, _. split; [reflexivity|]. left. reflexivity.
Qed.

End AskQuestionReturns.

Section GenerateNotesReturns.

Variable runs : nat -> Run.
Variable thread_messages : list Message.

Lemma post_generate_wait max_attempts attempts :
  post (GenerateNotes.wait_loop runs max_attempts attempts)
       (fun exit => exit = Returned None \/ exists n, exit = Fell_through n).
Proof.
  remember (max_attempts - attempts) as n eqn:Hn.
  revert attempts Hn. induction n as [|n IH]; intros attempts Hn;
    rewrite generate_wait_unfold; destruct (lt_dec attempts max_attempts); try lia;
    try (apply post_ret; right; eexists; reflexivity).
  eapply post_bind; [apply post_any|]. intros run _.
  destruct (decide (status run = "completed")); [apply post_ret; right; eexists; reflexivity|].
  destruct (decide (status run = "failed"));
    [eapply post_bind; [apply post_any|intros _ _; apply post_ret; left; reflexivity]|].
  eapply post_bind; [apply post_any|]. intros _ _.
  eapply post_bind; [apply post_any|]. intros _ _.
  apply IH. lia.
Qed.

Lemma generate_notes_result max_attempts assistant_id file_id t :
  exists r t',
    GenerateNotes.generate_notes_with_assistant_at runs thread_messages max_attempts
      assistant_id file_id t = (inr r, t') /\
    (r = None \/ exists value, r = Some value /\ latest_text thread_messages = Some value).
Proof.
  rewrite generate_notes_at_unfold. apply try_except_returns.
  - eapply post_bind; [apply post_generate_wait|]. intros exit [-> | [n ->]].
    { apply post_ret. left. reflexivity. }
    eapply post_bind; [apply post_any|]. intros _ _.
    eapply post_bind with (Q1 := fun ms => ms = thread_messages).
    { unfold messages_list. eapply post_bind; [apply post_any|]. intros _ _.
      apply post_ret. reflexivity. }
    intros ms ->. destruct thread_messages as [|[[|[value annotations|] blocks]] older];
      cbn [subscript0 content].
    + eapply post_bind with (Q1 := fun _ => False); [apply post_raise|]. intros ? [].
    + eapply post_bind with (Q1 := fun m => m = {| content := [] |});
        [apply post_ret; reflexivity|].
      intros ? ->. cbn [content subscript0]. eapply post_bind with (Q1 := fun _ => False); [apply post_raise|]. intros ? [].
    + eapply post_bind with
        (Q1 := fun m => m = {| content := TextBlock value annotations :: blocks |});
        [apply post_ret; reflexivity|].
      intros ? ->. cbn [content subscript0].
      eapply post_bind with (Q1 := fun b => b = TextBlock value annotations);
        [apply post_ret; reflexivity|].
      intros ? ->. cbn [text_of].
      eapply post_bind with (Q1 := fun x => x = (value, annotations));
        [apply post_ret; reflexivity|].
      intros ? ->. apply post_ret. right. exists value. split; reflexivity.
    + eapply post_bind with (Q1 := fun m => m = {| content := ImageBlock :: blocks |});
        [apply post_ret; reflexivity|].
      intros ? ->. cbn [content subscript0].
      eapply post_bind with (Q1 := fun b => b = ImageBlock); [apply post_ret; reflexivity|].
      intros ? ->. cbn [text_of]. eapply post_bind with (Q1 := fun _ => False); [apply post_raise|]. intros ? [].
  - intros e t0. eexists _, _. split; [reflexivity|]. left. reflexivity.
Qed.

End GenerateNotesReturns.

Section GenerateNotesFailed.

Variable runs : nat -> Run.
Variable thread_messages : list Message.

Lemma generate_notes_failed max_attempts assistant_id file_id k :
  k < max_attempts ->
  (forall j, j < k -> not_acted_on (runs j)) ->
  status (runs k) = "failed" ->
  GenerateNotes.generate_notes_with_assistant_at runs thread_messages max_attempts
    assistant_id file_id [] =
  (inr None,
   generate_prelude assistant_id file_id ++ rounds k ++
   [RunsRetrieve; Print ("Run failed: " +:+ str_opt (last_error (runs k)))]).
Proof.
  intros Hk Hpend Hst. rewrite generate_notes_at_unfold. cbn [app]. rewrite try_bind_run.
  destruct (prelude_counts_generate assistant_id file_id) as [Hc _].
  rewrite (generate_wait_rounds runs k max_attempts 0); [|lia|].
  2: { intros j Hj. rewrite Hc. apply Hpend, Hj. }
  cbn [Nat.add]. rewrite generate_wait_unfold. destruct (lt_dec k max_attempts); [|lia].
  rewrite bind_run. unfold runs_retrieve. rewrite checks_app, Hc, checks_rounds. cbn [Nat.add].
  destruct (decide (status (runs k) = "completed")) as [Heq|_]; [congruence|].
  destruct (decide (status (runs k) = "failed")); [|contradiction].
  rewrite bind_run. unfold print, emit. cbn [ret try_except].
  rewrite <- !app_assoc. reflexivity.
Qed.

End GenerateNotesFailed.

(** ** Returned values of the two polling functions *)

(** X1: [ask_question] lets no exception escape. It returns [None, None],
    or an answer with citations, and an answer is always the text of the
    first content block of the thread's latest message: the fallback text
    for a message without content is never what is returned. *)
Theorem ask_question_returns (runs : nat -> Run) (thread_messages : list Message)
    (files : string -> option string) (max_attempts : nat)
    (assistant_id question : string) (file_id : option string) (t : trace) :
  exists r t',
    QnA.ask_question_at runs thread_messages files max_attempts
      assistant_id question file_id t = (inr r, t') /\
    both_or_none r /\
    (forall answer, fst r = Some answer -> latest_text thread_messages = Some answer).
Proof.
  destruct (ask_question_result runs thread_messages files max_attempts
              assistant_id question file_id t) as (r & t' & Hrun & Hr).
  exists r, t'. split; [exact Hrun|].
  destruct Hr as [-> | (answer & citations & -> & Hlatest)].
  - split; [left; reflexivity|]. intros answer [=].
  - split; [right; exists answer, citations; reflexivity|].
    intros answer' [= <-]. exact Hlatest.
Qed.

(** X2: [generate_notes_with_assistant] lets no exception escape. It
    returns [None], or the text of the first content block of the thread's
    latest message. *)
Theorem generate_notes_returns (runs : nat -> Run) (thread_messages : list Message)
    (max_attempts : nat) (assistant_id : string) (file_id : option string) (t : trace) :
  exists r t',
    GenerateNotes.generate_notes_with_assistant_at runs thread_messages max_attempts
      assistant_id file_id t = (inr r, t') /\
    (forall value, r = Some value -> latest_text thread_messages = Some value).
Proof.
  destruct (generate_notes_result runs thread_messages max_attempts assistant_id file_id t)
    as (r & t' & Hrun & Hr).
  exists r, t'. split; [exact Hrun|].
  destruct Hr as [-> | (value & -> & Hlatest)].
  - intros value [=].
  - intros value' [= <-]. exact Hlatest.
Qed.

(** X3: in [ask_question], the first check that sees [failed], [cancelled]
    or [expired] ends the call: after the [k] earlier rounds and that check
    it prints the status line and returns [None, None], without sleeping
    again and without reading the thread. *)
Theorem ask_question_stops_at_terminal_failure (runs : nat -> Run)
    (thread_messages : list Message) (files : string -> option string)
    (max_attempts k : nat) (assistant_id question : string) (file_id : option string) :
  k < max_attempts ->
  (forall j, j < k -> pending (runs j)) ->
  status (runs k) ∈ ["failed"; "cancelled"; "expired"] ->
  let run := QnA.ask_question_at runs thread_messages files max_attempts
               assistant_id question file_id [] in
  fst run = inr (None, None) /\
  checks (snd run) = k + 1 /\ sleeps (snd run) = k /\
  (MessagesList ∉ snd run) /\
  last (snd run) =
    Some (Print (if decide (status (runs k) = "failed")
                 then "Run failed: " +:+ str_opt (last_error (runs k))
                 else "Run " +:+ status (runs k))).
Proof.
  intros Hk Hpend Hst. cbv zeta.
  rewrite (ask_question_terminal_failure runs thread_messages files max_attempts
             assistant_id question file_id k Hk Hpend Hst).
  cbn [fst snd]. destruct (prelude_counts_ask assistant_id question file_id) as [Hc Hs].
  split; [reflexivity|].
  rewrite !checks_app, !sleeps_app, Hc, Hs, checks_rounds, sleeps_rounds.
  split; [reflexivity|]. split; [cbn; lia|]. split.
  - rewrite !elem_of_app. intros [Hin|[Hin|Hin]].
    + unfold ask_prelude in Hin. destruct (truthy file_id);
        repeat (apply elem_of_cons in Hin as [Hin|Hin]; [discriminate|]);
        apply elem_of_nil in Hin; exact Hin.
    + clear -Hin. induction k as [|k' IH]; cbn [rounds] in Hin.
      * apply elem_of_nil in Hin. exact Hin.
      * apply elem_of_app in Hin as [Hin|Hin]; [|exact (IH Hin)].
        repeat (apply elem_of_cons in Hin as [Hin|Hin]; [discriminate|]).
        apply elem_of_nil in Hin. exact Hin.
    + repeat (apply elem_of_cons in Hin as [Hin|Hin]; [discriminate|]).
      apply elem_of_nil in Hin. exact Hin.
  - match goal with
    | |- last (_ ++ _ ++ [?a; ?b]) = _ =>
        change [a; b] with ([a] ++ [b]); rewrite !app_assoc; apply last_snoc
    end.
Qed.

Lemma pending_other (run : Run) :
  status run ∉ ["completed"; "failed"; "cancelled"; "expired"] -> pending run.
Proof.
  intros Hnot. unfold pending. repeat split.
  - intros Heq. apply Hnot. rewrite Heq. apply elem_of_cons. left. reflexivity.
  - intros Heq. apply Hnot. rewrite Heq. apply elem_of_cons. right.
    apply elem_of_cons. left. reflexivity.
  - intros Hin. apply Hnot. apply elem_of_cons. right. apply elem_of_cons. right. exact Hin.
Qed.

Lemma pending_not_acted_on (run : Run) : pending run -> not_acted_on run.
Proof. intros (Hc & Hf & _). split; assumption. Qed.

Lemma elem_of_rounds (e : event) (k : nat) : e ∈ rounds k -> e ∈ round.
Proof.
  induction k as [|k IH]; cbn [rounds]; intros Hin.
  - apply elem_of_nil in Hin. contradiction.
  - apply elem_of_app in Hin as [Hin|Hin]; [exact Hin|exact (IH Hin)].
Qed.

Lemma latest_text_inv (messages : list Message) (value : string) :
  latest_text messages = Some value ->
  exists annotations blocks older,
    messages = {| content := TextBlock value annotations :: blocks |} :: older.
Proof.
  destruct messages as [|[[|[v annotations|] blocks]] older]; try discriminate.
  intros [= <-]. exists annotations, blocks, older. reflexivity.
Qed.

Lemma ask_question_stops_at_terminal_failure_witness :
  1 < 30 /\
  (forall j, j < 1 -> pending (script ["running"] "failed" j)) /\
  status (script ["running"] "failed" 1) ∈ ["failed"; "cancelled"; "expired"] /\
  let run := QnA.ask_question (script ["running"] "failed") sample_thread no_files
               "asst_1" "What is a limit?" None [] in
  fst run = inr (None, None) /\ checks (snd run) = 2 /\ sleeps (snd run) = 1.
Proof.
  assert (Hk : 1 < 30) by lia.
  assert (Hpend : forall j, j < 1 -> pending (script ["running"] "failed" j)).
  { intros [|j] Hj; [|lia]. apply pending_other. cbn.
    intros Hin. repeat (apply elem_of_cons in Hin as [Hin|Hin]; [discriminate|]).
    apply elem_of_nil in Hin. exact Hin. }
  assert (Hst : status (script ["running"] "failed" 1) ∈ ["failed"; "cancelled"; "expired"]).
  { apply elem_of_cons. left. reflexivity. }
  split; [exact Hk|]. split; [exact Hpend|]. split; [exact Hst|].
  destruct (ask_question_stops_at_terminal_failure (script ["running"] "failed")
              sample_thread no_files 30 1 "asst_1" "What is a limit?" None Hk Hpend Hst)
    as (Hr & Hc & Hs & _).
  split; [exact Hr|]. split; [exact Hc|exact Hs].
Defined.

(** X4: in [ask_question], [max_attempts] checks in a row that see none of
    the four statuses end in the timeout: [None, None] is returned after
    exactly [max_attempts] checks and sleeps, the timeout line is the last
    thing printed and the thread is never read. *)
Theorem ask_question_times_out (runs : nat -> Run) (thread_messages : list Message)
    (files : string -> option string) (max_attempts : nat)
    (assistant_id question : string) (file_id : option string) :
  (forall j, j < max_attempts -> pending (runs j)) ->
  let run := QnA.ask_question_at runs thread_messages files max_attempts
               assistant_id question file_id [] in
  fst run = inr (None, None) /\
  checks (snd run) = max_attempts /\ sleeps (snd run) = max_attempts /\
  (MessagesList ∉ snd run) /\
  last (snd run) = Some (Print (nl +:+ "Timeout waiting for response")).
Proof.
  intros Hpend. cbv zeta.
  rewrite (ask_question_timeout runs thread_messages files max_attempts
             assistant_id question file_id Hpend).
  cbn [fst snd]. destruct (prelude_counts_ask assistant_id question file_id) as [Hc Hs].
  split; [reflexivity|].
  rewrite !checks_app, !sleeps_app, Hc, Hs, checks_rounds, sleeps_rounds.
  split; [cbn; lia|]. split; [cbn; lia|]. split.
  - rewrite !elem_of_app. intros [Hin|[Hin|Hin]].
    + unfold ask_prelude in Hin. destruct (truthy file_id);
        repeat (apply elem_of_cons in Hin as [Hin|Hin]; [discriminate|]);
        apply elem_of_nil in Hin; exact Hin.
    + apply elem_of_rounds in Hin.
      repeat (apply elem_of_cons in Hin as [Hin|Hin]; [discriminate|]).
      apply elem_of_nil in Hin. exact Hin.
    + repeat (apply elem_of_cons in Hin as [Hin|Hin]; [discriminate|]).
      apply elem_of_nil in Hin. exact Hin.
  - rewrite !app_assoc. apply last_snoc.
Qed.

Lemma ask_question_times_out_witness :
  (forall j, j < 2 -> pending (script [] "queued" j)) /\
  let run := QnA.ask_question_at (script [] "queued") sample_thread no_files 2
               "asst_1" "What is a limit?" None [] in
  fst run = inr (None, None) /\ checks (snd run) = 2 /\ sleeps (snd run) = 2.
Proof.
  assert (Hpend : forall j, j < 2 -> pending (script [] "queued" j)).
  { intros j _. apply pending_other. replace (status (script [] "queued" j)) with "queued"
      by (destruct j; reflexivity).
    intros Hin. repeat (apply elem_of_cons in Hin as [Hin|Hin]; [discriminate|]).
    apply elem_of_nil in Hin. exact Hin. }
  split; [exact Hpend|].
  destruct (ask_question_times_out (script [] "queued") sample_thread no_files 2
              "asst_1" "What is a limit?" None Hpend) as (Hr & Hc & Hs & _).
  split; [exact Hr|]. split; [exact Hc|exact Hs].
Defined.

(** X5: when check number [k] (from 0) is the first to see [completed],
    both functions return the latest text of the thread after exactly
    [k + 1] checks and [k] sleeps: no check and no sleep follows the one that
    saw [completed]. *)
Theorem returns_at_first_completed (runs : nat -> Run) (thread_messages : list Message)
    (files : string -> option string) (max_attempts k : nat)
    (assistant_id question : string) (file_id : option string) (value : string) :
  k < max_attempts ->
  (forall j, j < k -> pending (runs j)) ->
  status (runs k) = "completed" ->
  latest_text thread_messages = Some value ->
  (exists citations t,
     QnA.ask_question_at runs thread_messages files max_attempts
       assistant_id question file_id [] = (inr (Some value, Some citations), t) /\
     checks t = k + 1 /\ sleeps t = k) /\
  (exists t,
     GenerateNotes.generate_notes_with_assistant_at runs thread_messages max_attempts
       assistant_id file_id [] = (inr (Some value), t) /\
     checks t = k + 1 /\ sleeps t = k).
Proof.
  intros Hk Hpend Hst Hlatest.
  apply latest_text_inv in Hlatest as (annotations & blocks & older & Hmsg).
  split.
  - apply (ask_question_completed runs thread_messages files max_attempts assistant_id
             question file_id k value annotations blocks older); assumption.
  - eexists. split.
    + apply (generate_notes_completed runs thread_messages max_attempts assistant_id file_id k
               value annotations blocks older); try assumption.
      intros j Hj. apply pending_not_acted_on, Hpend, Hj.
    + destruct (prelude_counts_generate assistant_id file_id) as [Hc Hs].
      rewrite !checks_app, !sleeps_app, Hc, Hs, checks_rounds, sleeps_rounds.
      split; cbn; lia.
Qed.

Lemma returns_at_first_completed_witness :
  1 < 30 /\
  (forall j, j < 1 -> pending (script ["queued"] "completed" j)) /\
  status (script ["queued"] "completed" 1) = "completed" /\
  latest_text sample_thread = Some "latest message" /\
  exists t,
    GenerateNotes.generate_notes_with_assistant (script ["queued"] "completed")
      sample_thread "asst_1" None [] = (inr (Some "latest message"), t) /\
    checks t = 2 /\ sleeps t = 1.
Proof.
  assert (Hk : 1 < 30) by lia.
  assert (Hpend : forall j, j < 1 -> pending (script ["queued"] "completed" j)).
  { intros [|j] Hj; [|lia]. apply pending_other. cbn.
    intros Hin. repeat (apply elem_of_cons in Hin as [Hin|Hin]; [discriminate|]).
    apply elem_of_nil in Hin. exact Hin. }
  split; [exact Hk|]. split; [exact Hpend|]. split; [reflexivity|]. split; [reflexivity|].
  exact (proj2 (returns_at_first_completed (script ["queued"] "completed") sample_thread
                  no_files 30 1 "asst_1" "What is a limit?" None "latest message"
                  Hk Hpend eq_refl eq_refl)).
Defined.

(** X6: in [generate_notes_with_assistant], the first check that sees
    [failed] ends the call: it prints the failure with the provider's error
    and returns [None] after [k + 1] checks and [k] sleeps, without reading
    the thread. *)
Theorem generate_notes_stops_at_failed (runs : nat -> Run) (thread_messages : list Message)
    (max_attempts k : nat) (assistant_id : string) (file_id : option string) :
  k < max_attempts ->
  (forall j, j < k -> not_acted_on (runs j)) ->
  status (runs k) = "failed" ->
  let run := GenerateNotes.generate_notes_with_assistant_at runs thread_messages
               max_attempts assistant_id file_id [] in
  fst run = inr None /\
  checks (snd run) = k + 1 /\ sleeps (snd run) = k /\
  (MessagesList ∉ snd run) /\
  last (snd run) = Some (Print ("Run failed: " +:+ str_opt (last_error (runs k)))).
Proof.
  intros Hk Hpend Hst. cbv zeta.
  rewrite (generate_notes_failed runs thread_messages max_attempts assistant_id file_id k
             Hk Hpend Hst).
  cbn [fst snd]. destruct (prelude_counts_generate assistant_id file_id) as [Hc Hs].
  split; [reflexivity|].
  rewrite !checks_app, !sleeps_app, Hc, Hs, checks_rounds, sleeps_rounds.
  split; [reflexivity|]. split; [cbn; lia|]. split.
  - rewrite !elem_of_app. intros [Hin|[Hin|Hin]].
    + unfold generate_prelude in Hin. destruct (truthy file_id);
        repeat (apply elem_of_cons in Hin as [Hin|Hin]; [discriminate|]);
        apply elem_of_nil in Hin; exact Hin.
    + apply elem_of_rounds in Hin.
      repeat (apply elem_of_cons in Hin as [Hin|Hin]; [discriminate|]).
      apply elem_of_nil in Hin. exact Hin.
    + repeat (apply elem_of_cons in Hin as [Hin|Hin]; [discriminate|]).
      apply elem_of_nil in Hin. exact Hin.
  - match goal with
    | |- last (_ ++ _ ++ [?a; ?b]) = _ =>
        change [a; b] with ([a] ++ [b]); rewrite !app_assoc; apply last_snoc
    end.
Qed.

Lemma generate_notes_stops_at_failed_witness :
  0 < 30 /\
  (forall j, j < 0 -> not_acted_on (script [] "failed" j)) /\
  status (script [] "failed" 0) = "failed" /\
  let run := GenerateNotes.generate_notes_with_assistant (script [] "failed")
               sample_thread "asst_1" None [] in
  fst run = inr None /\ checks (snd run) = 1 /\ sleeps (snd run) = 0.
Proof.
  assert (Hk : 0 < 30) by lia.
  assert (Hpend : forall j, j < 0 -> not_acted_on (script [] "failed" j)).
  { intros j Hj. lia. }
  split; [exact Hk|]. split; [exact Hpend|]. split; [reflexivity|].
  destruct (generate_notes_stops_at_failed (script [] "failed") sample_thread 30 0
              "asst_1" None Hk Hpend eq_refl) as (Hr & Hc & Hs & _).
  split; [exact Hr|]. split; [exact Hc|exact Hs].
Defined.

(** ** Citations *)

Section Citations.

Variable runs : nat -> Run.
Variable thread_messages : list Message.
Variable files : string -> option string.

Lemma get_file_name_value file_id t :
  exists t', QnA.get_file_name files file_id t = (inr (file_name files file_id), t') /\
             checks t' = checks t /\ sleeps t' = sleeps t.
Proof.
  unfold QnA.get_file_name, try_except, files_retrieve, file_name. rewrite bind_run.
  unfold emit at 1. destruct (files file_id) as [name|].
  - eexists. split; [reflexivity|]. rewrite checks_app, sleeps_app.
    change (checks [FilesRetrieve file_id]) with 0.
    change (sleeps [FilesRetrieve file_id]) with 0. lia.
  - eexists. split; [reflexivity|]. rewrite !checks_app, !sleeps_app.
    split; cbn; lia.
Qed.

(** The loop over the annotations is a filtering map, in order. *)
Lemma collect_citations_value annotations : forall citations t,
  exists t', QnA.collect_citations files annotations citations t =
               (inr (citations ++ omap (cite files) annotations), t') /\
             checks t' = checks t /\ sleeps t' = sleeps t.
Proof.
  induction annotations as [|[fid|fid|] rest IH]; intros citations t;
    cbn [QnA.collect_citations omap list_omap cite].
  - exists t. rewrite app_nil_r. split; [reflexivity|]. split; reflexivity.
  - rewrite bind_run. destruct (get_file_name_value fid t) as (t1 & -> & Hc & Hs).
    destruct (IH (citations ++ [ {| QnA.file_id := fid; QnA.citation := file_name files fid |} ]) t1)
      as (t2 & -> & Hc2 & Hs2).
    exists t2. rewrite <- app_assoc. split; [reflexivity|]. split; congruence.
  - rewrite bind_run. destruct (decide (default "Unknown" fid <> "Unknown")) as [Hne|Heq].
    + destruct (get_file_name_value (default "Unknown" fid) t) as (t1 & -> & Hc & Hs).
      destruct (IH (citations ++ [ {| QnA.file_id := default "Unknown" fid;
                                      QnA.citation := file_name files (default "Unknown" fid) |} ]) t1)
        as (t2 & -> & Hc2 & Hs2).
      exists t2. rewrite <- app_assoc.
      destruct (decide (default "Unknown" fid = "Unknown")); [contradiction|].
      split; [reflexivity|]. split; congruence.
    + cbn [ret].
      destruct (IH (citations ++ [ {| QnA.file_id := default "Unknown" fid;
                                      QnA.citation := "Unknown file" |} ]) t)
        as (t2 & -> & Hc2 & Hs2).
      exists t2. rewrite <- app_assoc.
      destruct (decide (default "Unknown" fid = "Unknown")) as [_|Hne];
        [|exfalso; apply Heq; exact Hne].
      split; [reflexivity|]. split; assumption.
  - apply IH.
Qed.

Lemma ask_question_completed_citations max_attempts assistant_id question file_id k
    value annotations blocks older :
  k < max_attempts ->
  (forall j, j < k -> pending (runs j)) ->
  status (runs k) = "completed" ->
  thread_messages = {| content := TextBlock value annotations :: blocks |} :: older ->
  exists t',
    QnA.ask_question_at runs thread_messages files max_attempts
      assistant_id question file_id [] =
    (inr (Some value, Some (omap (cite files) (default [] annotations))), t').
Proof.
  intros Hk Hpend Hst Hmsg. rewrite ask_question_at_unfold. cbn [app]. rewrite try_bind_run.
  destruct (prelude_counts_ask assistant_id question file_id) as [Hc Hs].
  rewrite (ask_wait_pending runs k max_attempts 0); [|lia|].
  2: { intros j Hj. rewrite Hc. apply Hpend, Hj. }
  cbn [Nat.add]. rewrite ask_wait_unfold. destruct (lt_dec k max_attempts); [|lia].
  rewrite bind_run. unfold runs_retrieve. rewrite checks_app, Hc, checks_rounds. cbn [Nat.add].
  destruct (decide (status (runs k) = "completed")); [|done]. cbn [ret].
  destruct (decide (max_attempts <= k)); [lia|].
  unfold print. rewrite try_emit. unfold messages_list. rewrite try_bind_run, bind_run.
  unfold emit at 1. cbn [ret]. rewrite Hmsg. cbn [subscript0]. rewrite try_ret.
  cbn [content]. rewrite try_bind_run, bind_run. cbn [text_of ret fst].
  cbn [subscript0]. rewrite try_ret. cbn [text_of]. rewrite try_ret. cbn [snd].
  rewrite try_bind_run.
  destruct annotations as [anns|]; cbn [default from_option].
  - match goal with
    | |- context [QnA.collect_citations files anns [] ?t0] =>
        destruct (collect_citations_value anns [] t0) as (t' & -> & _)
    end.
    exists t'. reflexivity.
  - eexists. reflexivity.
Qed.

End Citations.

(** X7: when [ask_question] succeeds, its citations are those of the
    annotations of the answer, in their order: one for every file citation
    and file path, none for any other annotation. A file whose lookup
    fails is cited as "Unknown file (id)", a file path without id under the
    id "Unknown" as "Unknown file"; a failing lookup never ends the call. *)
Theorem ask_question_citations (runs : nat -> Run) (thread_messages : list Message)
    (files : string -> option string) (max_attempts k : nat)
    (assistant_id question : string) (file_id : option string)
    (value : string) (annotations : list annotation) (blocks : list content_block)
    (older : list Message) :
  k < max_attempts ->
  (forall j, j < k -> pending (runs j)) ->
  status (runs k) = "completed" ->
  thread_messages = {| content := TextBlock value (Some annotations) :: blocks |} :: older ->
  fst (QnA.ask_question_at runs thread_messages files max_attempts
         assistant_id question file_id []) =
  inr (Some value, Some (omap (cite files) annotations)).
Proof.
  intros Hk Hpend Hst Hmsg.
  destruct (ask_question_completed_citations runs thread_messages files max_attempts
              assistant_id question file_id k value (Some annotations) blocks older
              Hk Hpend Hst Hmsg) as (t' & ->).
  reflexivity.
Qed.

Lemma ask_question_citations_witness :
  0 < 30 /\
  (forall j, j < 0 -> pending (script [] "completed" j)) /\
  status (script [] "completed" 0) = "completed" /\
  fst (QnA.ask_question (script [] "completed") cited_thread one_file
         "asst_1" "What is a limit?" None []) =
  inr (Some "See chapter 2.",
       Some [ {| QnA.file_id := "file-1"; QnA.citation := "calculus_basics.pdf" |};
              {| QnA.file_id := "Unknown"; QnA.citation := "Unknown file" |};
              {| QnA.file_id := "file-9"; QnA.citation := "Unknown file (file-9)" |} ]).
Proof.
  assert (Hk : 0 < 30) by lia.
  assert (Hpend : forall j, j < 0 -> pending (script [] "completed" j)).
  { intros j Hj. lia. }
  split; [exact Hk|]. split; [exact Hpend|]. split; [reflexivity|].
  exact (ask_question_citations (script [] "completed") cited_thread one_file 30 0
           "asst_1" "What is a limit?" None "See chapter 2." cited_annotations [] []
           Hk Hpend eq_refl eq_refl).
Defined.

(** ** Field bounds and error reports of the schema *)

Section SchemaEdges.

Variable json_loads : string -> exn + pyobj.
Variable str_as_int : string -> option Z.
Variable float_as_int : float -> option Z.

Notation Note_validate := (GenerateNotes.Note_validate str_as_int float_as_int).
Notation NotesResponse_validate :=
  (GenerateNotes.NotesResponse_validate str_as_int float_as_int).
Notation validate_and_create_notes :=
  (GenerateNotes.validate_and_create_notes json_loads str_as_int float_as_int).



(** A notes array that validates has only valid items. *)
Lemma NotesResponse_validate_items data items r item :
  NotesResponse_validate data = inr r ->
  data !! "notes" = Some (PyList items) -> item ∈ items ->
  exists n, Note_validate item = inr n.
Proof.
  intros Hrun Hlookup Hin.
  apply NotesResponse_validate_inr in Hrun as (items' & Hlookup' & _ & Hall).
  rewrite Hlookup in Hlookup'. injection Hlookup' as <-.
  clear -Hall Hin. induction Hall as [|i n items ns Hi _ IH].
  - apply elem_of_nil in Hin. contradiction.
  - apply elem_of_cons in Hin as [-> | Hin]; [exists n; exact Hi|exact (IH Hin)].
Qed.

End SchemaEdges.



(** X9: one element that the schema refuses makes the whole response
    refused: whatever the other elements and the length of the array, the
    call prints a validation error and returns [None], no partial list. *)
Theorem one_invalid_note_refuses_all (json_loads : string -> exn + pyobj)
    (str_as_int : string -> option Z) (float_as_int : float -> option Z)
    (json_content : string) (t : trace) (data : gmap string pyobj)
    (items : list pyobj) (item : pyobj) (item_errors : list line_error) :
  json_loads json_content = inr (PyDict data) ->
  data !! "notes" = Some (PyList items) ->
  item ∈ items ->
  GenerateNotes.Note_validate str_as_int float_as_int item = inl item_errors ->
  exists es,
    GenerateNotes.validate_and_create_notes json_loads str_as_int float_as_int
      json_content t =
    (inr None, t ++ [PrintExn "Validation error: " (ValidationError es)]).
Proof.
  intros Hparse Hlookup Hin Hitem.
  destruct (GenerateNotes.NotesResponse_validate str_as_int float_as_int data)
    as [es|r] eqn:Hrun.
  - exists es. apply (validate_refused _ _ _ _ data); assumption.
  - destruct (NotesResponse_validate_items _ _ data items r item Hrun Hlookup Hin)
      as [n Hn]. congruence.
Qed.

Lemma one_invalid_note_refuses_all_witness :
  let json_loads := loads_only zero_id_text (PyDict zero_id) in
  json_loads zero_id_text = inr (PyDict zero_id) /\
  zero_id !! "notes" = Some (PyList zero_id_items) /\
  PyDict (note_dict 0 42) ∈ zero_id_items /\
  GenerateNotes.Note_validate no_str_as_int no_float_as_int (PyDict (note_dict 0 42)) =
    inl [LineError [LocField "id"] (GreaterThanEqual 1)] /\
  fst (GenerateNotes.validate_and_create_notes json_loads no_str_as_int no_float_as_int
         zero_id_text []) = inr None.
Proof.
  assert (Hin : PyDict (note_dict 0 42) ∈ zero_id_items).
  { unfold zero_id_items. cbn [map].
    do 9 (apply elem_of_cons; right). apply elem_of_cons. left. reflexivity. }
  assert (Hitem : GenerateNotes.Note_validate no_str_as_int no_float_as_int
                    (PyDict (note_dict 0 42)) =
                  inl [LineError [LocField "id"] (GreaterThanEqual 1)]).
  { vm_compute. reflexivity. }
  split; [reflexivity|]. split; [reflexivity|]. split; [exact Hin|]. split; [exact Hitem|].
  destruct (one_invalid_note_refuses_all (loads_only zero_id_text (PyDict zero_id))
              no_str_as_int no_float_as_int zero_id_text [] zero_id zero_id_items
              (PyDict (note_dict 0 42)) _ eq_refl eq_refl Hin Hitem) as [es ->].
  reflexivity.
Defined.

Lemma field_missing {A} name (validator : pyobj -> Pydantic.result A)
    (data : gmap string pyobj) :
  data !! name = None ->
  Pydantic.field name None validator data = inl [LineError [LocField name] Missing].
Proof. intros Hmissing. unfold Pydantic.field. rewrite Hmissing. reflexivity. Qed.

(** X10: a note element that lacks [id], [heading] or [summary] is refused,
    and the error list names every missing one of them at its field, the
    errors of the fields being reported together. *)
Theorem missing_fields_are_reported (str_as_int : string -> option Z)
    (float_as_int : float -> option Z) (data : gmap string pyobj) (name : string) :
  name ∈ ["id"; "heading"; "summary"] ->
  data !! name = None ->
  exists es,
    GenerateNotes.Note_validate str_as_int float_as_int (PyDict data) = inl es /\
    LineError [LocField name] Missing ∈ es.
Proof.
  intros Hname Hmissing. unfold GenerateNotes.Note_validate. cbv zeta.
  apply elem_of_cons in Hname as [-> | Hname];
    [|apply elem_of_cons in Hname as [-> | Hname];
      [|apply elem_of_cons in Hname as [-> | Hname];
        [|apply elem_of_nil in Hname; contradiction]]].
  - rewrite (field_missing "id" _ data Hmissing).
    destruct (Pydantic.field "heading" _ _ data) as [es2|h];
      destruct (Pydantic.field "summary" _ _ data) as [es3|s];
      destruct (Pydantic.field "page_ref" _ _ data) as [es4|p];
      eexists; (split; [reflexivity|]); apply elem_of_app; left;
      apply elem_of_cons; left; reflexivity.
  - rewrite (field_missing "heading" _ data Hmissing).
    destruct (Pydantic.field "id" _ _ data) as [es1|i];
      destruct (Pydantic.field "summary" _ _ data) as [es3|s];
      destruct (Pydantic.field "page_ref" _ _ data) as [es4|p];
      eexists; (split; [reflexivity|]); apply elem_of_app; right;
      apply elem_of_app; left; apply elem_of_cons; left; reflexivity.
  - rewrite (field_missing "summary" _ data Hmissing).
    destruct (Pydantic.field "id" _ _ data) as [es1|i];
      destruct (Pydantic.field "heading" _ _ data) as [es2|h];
      destruct (Pydantic.field "page_ref" _ _ data) as [es4|p];
      eexists; (split; [reflexivity|]); apply elem_of_app; right;
      apply elem_of_app; right; apply elem_of_app; left;
      apply elem_of_cons; left; reflexivity.
Qed.

Lemma missing_fields_are_reported_witness :
  "heading" ∈ ["id"; "heading"; "summary"] /\
  (∅ : gmap string pyobj) !! "heading" = None /\
  exists es,
    GenerateNotes.Note_validate no_str_as_int no_float_as_int (PyDict ∅) = inl es /\
    LineError [LocField "heading"] Missing ∈ es.
Proof.
  assert (Hin : "heading" ∈ ["id"; "heading"; "summary"]).
  { apply elem_of_cons. right. apply elem_of_cons. left. reflexivity. }
  split; [exact Hin|]. split; [reflexivity|].
  exact (missing_fields_are_reported no_str_as_int no_float_as_int ∅ "heading" Hin eq_refl).
Defined.

(** X11: a text that parses to anything but an object (an array, a string,
    a number, [true], [false], [null]) is refused by the last handler: the
    call prints "Error creating notes: " with a [TypeError] and returns
    [None]. *)
Theorem non_object_is_refused (json_loads : string -> exn + pyobj)
    (str_as_int : string -> option Z) (float_as_int : float -> option Z)
    (json_content : string) (t : trace) (parsed : pyobj) :
  json_loads json_content = inr parsed ->
  (forall data, parsed <> PyDict data) ->
  exists msg,
    GenerateNotes.validate_and_create_notes json_loads str_as_int float_as_int
      json_content t =
    (inr None, t ++ [PrintExn "Error creating notes: " (TypeError msg)]).
Proof.
  intros Hparse Hshape. unfold GenerateNotes.validate_and_create_notes.
  rewrite Hparse, try_ret.
  destruct parsed as [| | | | | |data]; try (eexists; reflexivity).
  exfalso. apply (Hshape data). reflexivity.
Qed.

Lemma non_object_is_refused_witness :
  let json_loads := loads_only "[]" (PyList []) in
  json_loads "[]" = inr (PyList []) /\
  (forall data, PyList [] <> PyDict data) /\
  exists msg,
    GenerateNotes.validate_and_create_notes json_loads no_str_as_int no_float_as_int
      "[]" [] =
    (inr None, [PrintExn "Error creating notes: " (TypeError msg)]).
Proof.
  assert (Hshape : forall data, PyList [] <> PyDict data) by (intros data; discriminate).
  split; [reflexivity|]. split; [exact Hshape|].
  exact (non_object_is_refused (loads_only "[]" (PyList [])) no_str_as_int no_float_as_int
           "[]" [] (PyList []) eq_refl Hshape).
Defined.

(** X12: an object without a [notes] key is refused with the error
    [missing] at [notes], and one whose [notes] is not an array with the
    error [list_type] at [notes]; both return [None]. *)
Theorem notes_key_is_required (json_loads : string -> exn + pyobj)
    (str_as_int : string -> option Z) (float_as_int : float -> option Z)
    (json_content : string) (t : trace) (data : gmap string pyobj) :
  json_loads json_content = inr (PyDict data) ->
  (forall items, data !! "notes" <> Some (PyList items)) ->
  GenerateNotes.validate_and_create_notes json_loads str_as_int float_as_int
    json_content t =
  (inr None,
   t ++ [PrintExn "Validation error: "
           (ValidationError
              [LineError [LocField "notes"]
                 (match data !! "notes" with None => Missing | Some _ => ListType end)])]).
Proof.
  intros Hparse Hshape. apply (validate_refused _ _ _ _ data); [exact Hparse|].
  unfold GenerateNotes.NotesResponse_validate, Pydantic.field.
  destruct (data !! "notes") as [v|]; [|reflexivity].
  destruct v as [| | | | |items|]; try reflexivity.
  exfalso. apply (Hshape items). reflexivity.
Qed.

Lemma notes_key_is_required_witness :
  let json_loads := loads_only exam_notes_text (PyDict exam_notes_only) in
  json_loads exam_notes_text = inr (PyDict exam_notes_only) /\
  (forall items, exam_notes_only !! "notes" <> Some (PyList items)) /\
  GenerateNotes.validate_and_create_notes json_loads no_str_as_int no_float_as_int
    exam_notes_text [] =
  (inr None,
   [PrintExn "Validation error: "
      (ValidationError [LineError [LocField "notes"] Missing])]).
Proof.
  assert (Hshape : forall items, exam_notes_only !! "notes" <> Some (PyList items))
    by (intros items; discriminate).
  split; [reflexivity|]. split; [exact Hshape|].
  exact (notes_key_is_required (loads_only exam_notes_text (PyDict exam_notes_only))
           no_str_as_int no_float_as_int exam_notes_text [] exam_notes_only eq_refl Hshape).
Defined.

(** * The rest of the scripts *)

(** ** Reasoning about the host monad *)

Section Spec.

Variable rel : Host.world -> Host.world -> Prop.
Hypothesis rel_refl : forall w, rel w w.
Hypothesis rel_trans : forall w1 w2 w3, rel w1 w2 -> rel w2 w3 -> rel w1 w3.

Context {A B : Type}.

Lemma spec_ret (a : A) (Q : A -> Prop) R : Q a -> spec rel (Host.ret a) Q R.
Proof. intros H w. split; [apply rel_refl|exact H]. Qed.

Lemma spec_raise (e : Host.exception) (Q : A -> Prop) (R : Host.exception -> Prop) :
  R e -> spec rel (Host.raise e) Q R.
Proof. intros H w. split; [apply rel_refl|exact H]. Qed.

Lemma spec_bind (m : Host.IO A) (k : A -> Host.IO B) (Q1 : A -> Prop) (Q2 : B -> Prop) R :
  spec rel m Q1 R -> (forall a, Q1 a -> spec rel (k a) Q2 R) -> spec rel (Host.bind m k) Q2 R.
Proof.
  intros Hm Hk w. unfold Host.bind. destruct (Hm w) as [Hrel Hres].
  destruct (m w) as [[e|a] w1]; cbn [fst snd] in *; [split; assumption|].
  destruct (Hk a Hres w1) as [Hrel2 Hres2]. split; [|exact Hres2].
  apply (rel_trans _ w1); assumption.
Qed.

Lemma spec_try_except (m : Host.IO A) (h : Host.exception -> Host.IO A)
    (Q : A -> Prop) (R1 R2 : Host.exception -> Prop) :
  spec rel m Q R1 -> (forall e, R1 e -> spec rel (h e) Q R2) ->
  spec rel (Host.try_except m h) Q R2.
Proof.
  intros Hm Hh w. unfold Host.try_except. destruct (Hm w) as [Hrel Hres].
  destruct (m w) as [[e|a] w1]; cbn [fst snd] in *; [|split; assumption].
  destruct (Hh e Hres w1) as [Hrel2 Hres2]. split; [|exact Hres2].
  apply (rel_trans _ w1); assumption.
Qed.


(** A function of the first layer changes the trace only. *)
Lemma spec_lift (m : M A) (Q : A -> Prop) (R : Host.exception -> Prop) :
  (forall w t, rel w (with_log w t)) ->
  (forall t, match fst (m t) with inr a => Q a | inl e => R (Host.PyExn e) end) ->
  spec rel (Host.lift m) Q R.
Proof.
  intros Hlog Hm w. unfold Host.lift. specialize (Hm (Host.log w)).
  destruct (m (Host.log w)) as [[e|a] t']; cbn [fst snd] in *;
    (split; [apply (Hlog w t')|exact Hm]).
Qed.

End Spec.


Lemma find_first_such {A} (p : A -> bool) (l : list A) (x : A) :
  List.find p l = Some x -> first_such (fun y => p y = true) l x.
Proof.
  induction l as [|y l IH]; cbn [List.find]; [discriminate|].
  destruct (p y) eqn:Hy.
  - intros [= <-]. exists [], l. repeat split; [exact Hy|constructor].
  - intros Hfind. destruct (IH Hfind) as (before & after & -> & Hx & Hbefore).
    exists (y :: before), after. repeat split; [exact Hx|].
    constructor; [rewrite Hy; discriminate|exact Hbefore].
Qed.

Lemma first_such_iff {A} (P P' : A -> Prop) (l : list A) (x : A) :
  (forall y, P y <-> P' y) -> first_such P l x -> first_such P' l x.
Proof.
  intros Hiff (before & after & -> & Hx & Hbefore). exists before, after.
  repeat split; [apply Hiff, Hx|].
  eapply Forall_impl; [exact Hbefore|]. intros y Hy HP'. apply Hy, Hiff, HP'.
Qed.

Section HostSpecs.

Variable rel : Host.world -> Host.world -> Prop.
Hypothesis rel_refl : forall w, rel w w.
Hypothesis rel_trans : forall w1 w2 w3, rel w1 w2 -> rel w2 w3 -> rel w1 w3.
Hypothesis rel_log : forall w t, rel w (with_log w t).
Hypothesis rel_send : forall w r,
  rel w {| Host.log := Host.log w; Host.requests := Host.requests w ++ [r];
           Host.disk := Host.disk w; Host.clock_reads := Host.clock_reads w |}.
Hypothesis rel_clock : forall w,
  rel w {| Host.log := Host.log w; Host.requests := Host.requests w;
           Host.disk := Host.disk w; Host.clock_reads := S (Host.clock_reads w) |}.

Lemma spec_print text : spec rel (Host.print text) anything never.
Proof.
  unfold Host.print. apply spec_lift; [exact rel_log|]. intros t. exact I.
Qed.

Lemma spec_print_exception prefix e : spec rel (Host.print_exception prefix e) anything never.
Proof.
  destruct e; cbn [Host.print_exception]; try apply spec_print.
  apply spec_lift; [exact rel_log|]. intros t. exact I.
Qed.

Lemma spec_send r : spec rel (Host.send r) anything never.
Proof. intros w. split; [apply rel_send|exact I]. Qed.


End HostSpecs.

(** ** The functions of the notes script, one by one *)

Section NotesScriptSpecs.

Variable rel : Host.world -> Host.world -> Prop.
Variable allowed : Host.file_written -> Prop.
Hypothesis rel_refl : forall w, rel w w.
Hypothesis rel_trans : forall w1 w2 w3, rel w1 w2 -> rel w2 w3 -> rel w1 w3.
Hypothesis rel_log : forall w t, rel w (with_log w t).
Hypothesis rel_send : forall w r,
  rel w {| Host.log := Host.log w; Host.requests := Host.requests w ++ [r];
           Host.disk := Host.disk w; Host.clock_reads := Host.clock_reads w |}.
Hypothesis rel_clock : forall w,
  rel w {| Host.log := Host.log w; Host.requests := Host.requests w;
           Host.disk := Host.disk w; Host.clock_reads := S (Host.clock_reads w) |}.
Hypothesis rel_write : forall w f, allowed f ->
  rel w {| Host.log := Host.log w; Host.requests := Host.requests w;
           Host.disk := Host.disk w ++ [f]; Host.clock_reads := Host.clock_reads w |}.

Variable runs : nat -> Run.
Variable thread_messages : list Message.
Variable json_loads : string -> exn + pyobj.
Variable str_as_int : string -> option Z.
Variable float_as_int : float -> option Z.
Variable assistants : option (list Host.Assistant.t).
Variable files_listed : option (list Host.FileObject.t).
Variable completion : option (list (option string)).
Variable strftime : nat -> string.
Variable abspath : string -> string.
Variable open_error : string -> option string.



Lemma find_study_assistant listed a :
  List.find (fun a => bool_decide (Host.Assistant.name a = "Study Q&A Assistant")) listed
    = Some a ->
  first_such is_study_assistant listed a.
Proof.
  intros Hfind. apply find_first_such in Hfind. eapply first_such_iff; [|exact Hfind].
  intros y. cbn. unfold is_study_assistant. rewrite bool_decide_eq_true. reflexivity.
Qed.

Lemma find_no_study_assistant listed :
  List.find (fun a => bool_decide (Host.Assistant.name a = "Study Q&A Assistant")) listed
    = None ->
  Forall (fun a => ~ is_study_assistant a) listed.
Proof.
  intros Hfind. apply Forall_forall. intros a Hin Hname.
  apply list_elem_of_In in Hin.
  pose proof (List.find_none _ _ Hfind a Hin) as Hfalse. cbn in Hfalse.
  apply bool_decide_eq_false in Hfalse. contradiction.
Qed.



(** [generate_notes_direct] never raises; it returns the content of the
    first choice, and [None] when the call fails or has no choice. *)
Lemma spec_generate_notes_direct :
  spec rel (NotesScript.generate_notes_direct completion)
       (fun r => r = match completion with
                     | Some (content :: _) => content
                     | _ => None
                     end)
       never.
Proof.
  unfold NotesScript.generate_notes_direct, NotesScript.chat_completions_create.
  eapply spec_try_except with (R1 := fun _ => match completion with
                                                | Some (_ :: _) => False
                                                | _ => True
                                                end); [exact rel_trans| |].
  - eapply spec_bind with (Q1 := fun choices => completion = Some choices).
    + exact rel_trans.
    + eapply spec_bind; [exact rel_trans|apply spec_send; exact rel_send|]. intros _ _.
      destruct completion as [choices|].
      * apply spec_ret; [exact rel_refl|reflexivity].
      * apply spec_raise; [exact rel_refl|exact I].
    + intros choices ->. apply spec_lift; [exact rel_log|]. intros t.
      destruct choices as [|content rest]; cbn; [exact I|reflexivity].
  - intros e He.
    eapply spec_bind; [exact rel_trans|apply spec_print_exception; exact rel_log|].
    intros _ _. apply spec_ret; [exact rel_refl|].
    destruct completion as [[|content rest]|]; [reflexivity|contradiction|reflexivity].
Qed.







End NotesScriptSpecs.

(** ** Relations between worlds *)

Lemma same_disk_refl w : same_disk w w.
Proof. reflexivity. Qed.

Lemma same_disk_trans w1 w2 w3 : same_disk w1 w2 -> same_disk w2 w3 -> same_disk w1 w3.
Proof. unfold same_disk. congruence. Qed.

Section Wrote.

Variable allowed : Host.file_written -> Prop.




End Wrote.

(** Pairs a result with the world it leaves. *)
Lemma spec_returns {A} rel (m : Host.IO A) Q (w : Host.world) :
  spec rel m Q never -> exists a w', m w = (inr a, w') /\ rel w w' /\ Q a.
Proof.
  intros Hspec. destruct (Hspec w) as [Hrel Hres].
  destruct (m w) as [[e|a] w'] eqn:Hrun; cbn [fst snd] in *; [contradiction|].
  exists a, w'. repeat split; assumption.
Qed.

(** ** Properties of the rest of the notes script *)


(** X14: [generate_notes_direct] never raises and leaves the disk alone. It
    returns the content of the first choice of the completion, and [None]
    when the call fails or the completion has no choice. *)
Theorem generate_notes_direct_returns (completion : option (list (option string)))
    (w : Host.world) :
  exists w',
    NotesScript.generate_notes_direct completion w =
      (inr match completion with
           | Some (content :: _) => content
           | _ => None
           end, w') /\
    Host.disk w' = Host.disk w.
Proof.
  destruct (spec_returns same_disk (NotesScript.generate_notes_direct completion) _ w
              (spec_generate_notes_direct same_disk same_disk_refl same_disk_trans
                 (fun _ _ => eq_refl) (fun _ _ => eq_refl) completion))
    as (r & w' & Hrun & Hdisk & ->).
  exists w'. split; [exact Hrun|exact Hdisk].
Qed.



Lemma carries_model_dump (n : GenerateNotes.Note) : carries (Host.model_dump n) n.
Proof.
  unfold carries, Host.model_dump. destruct n as [i h s [z|]]; cbn [GenerateNotes.id
    GenerateNotes.heading GenerateNotes.summary GenerateNotes.page_ref];
    repeat split; try reflexivity. right. reflexivity.
Qed.

(** X17: dumping and validating again is the identity on valid notes: a
    note within the bounds validates from its [model_dump] to itself, and
    the notes [validate_and_create_notes] returned validate, from the
    object whose [notes] lists their dumps, to the same notes. *)
Theorem model_dump_round_trip (json_loads : string -> exn + pyobj)
    (str_as_int : string -> option Z) (float_as_int : float -> option Z)
    (json_content : string) (t t' : trace) (notes : list GenerateNotes.Note) :
  GenerateNotes.validate_and_create_notes json_loads str_as_int float_as_int json_content t =
    (inr (Some notes), t') ->
  Forall (fun n => GenerateNotes.Note_validate str_as_int float_as_int
                     (PyDict (Host.model_dump n)) = inr n) notes /\
  GenerateNotes.NotesResponse_validate str_as_int float_as_int
    {[ "notes" := PyList (map (fun n => PyDict (Host.model_dump n)) notes) ]} =
  inr {| GenerateNotes.notes := notes |}.
Proof.
  intros Hrun. apply validate_some_inv in Hrun as (data & r & _ & Hvalid & -> & _).
  apply NotesResponse_validate_inr in Hvalid as (items & _ & Hlen & Hall).
  apply Forall2_length in Hall as Hsame.
  assert (Hbounds : Forall within_bounds (GenerateNotes.notes r)).
  { clear -Hall. induction Hall as [|item n items ns Hitem _ IH]; constructor; [|exact IH].
    apply Note_validate_inr in Hitem as [_ Hb]. exact Hb. }
  assert (Hdumps : Forall (fun n => GenerateNotes.Note_validate str_as_int float_as_int
                                      (PyDict (Host.model_dump n)) = inr n)
                          (GenerateNotes.notes r)).
  { eapply Forall_impl; [exact Hbounds|]. intros n Hn.
    apply Note_validate_carries; [apply carries_model_dump|exact Hn]. }
  split; [exact Hdumps|].
  apply (NotesResponse_validate_accepts _ _ _
           (map (fun n => PyDict (Host.model_dump n)) (GenerateNotes.notes r)));
    [reflexivity| |lia].
  clear -Hdumps. induction Hdumps as [|n ns Hn _ IH]; cbn [map]; constructor; assumption.
Qed.

Lemma model_dump_round_trip_witness :
  let ns := map (fun id => sample_note id 42) [1; 1; 3; 4; 5; 6; 7; 8; 9; 10]%Z in
  GenerateNotes.validate_and_create_notes
    (loads_only duplicate_ids_text (PyDict duplicate_ids))
    no_str_as_int no_float_as_int duplicate_ids_text [] = (inr (Some ns), []) /\
  GenerateNotes.NotesResponse_validate no_str_as_int no_float_as_int
    {[ "notes" := PyList (map (fun n => PyDict (Host.model_dump n)) ns) ]} =
  inr {| GenerateNotes.notes := ns |}.
Proof.
  assert (Hrun : GenerateNotes.validate_and_create_notes
                   (loads_only duplicate_ids_text (PyDict duplicate_ids))
                   no_str_as_int no_float_as_int duplicate_ids_text [] =
                 (inr (Some (map (fun id => sample_note id 42)
                               [1; 1; 3; 4; 5; 6; 7; 8; 9; 10]%Z)), [])).
  { vm_compute. reflexivity. }
  split; [exact Hrun|].
  exact (proj2 (model_dump_round_trip _ _ _ _ _ _ _ Hrun)).
Defined.

(** X18: the object [save_notes_to_file] dumps lists the notes under the
    key [exam_notes], not [notes]: read back, it is refused by
    [validate_and_create_notes] with the error [missing] at [notes],
    whatever the notes. *)
Theorem saved_file_is_refused (json_loads : string -> exn + pyobj)
    (str_as_int : string -> option Z) (float_as_int : float -> option Z)
    (json_content : string) (t : trace)
    (notes : list GenerateNotes.Note) (stamp : string) :
  json_loads json_content = inr (NotesScript.notes_data notes stamp) ->
  GenerateNotes.validate_and_create_notes json_loads str_as_int float_as_int json_content t =
  (inr None,
   t ++ [PrintExn "Validation error: "
           (ValidationError [LineError [LocField "notes"] Missing])]).
Proof.
  intros Hparse. unfold NotesScript.notes_data in Hparse.
  eapply validate_refused; [exact Hparse|].
  unfold GenerateNotes.NotesResponse_validate, Pydantic.field.
  replace (_ !! "notes") with (@None pyobj); [reflexivity|].
  symmetry. apply not_elem_of_list_to_map_1. cbn.
  intros Hin. repeat (apply elem_of_cons in Hin as [Hin|Hin]; [discriminate|]).
  apply elem_of_nil in Hin. exact Hin.
Qed.

Lemma saved_file_is_refused_witness :
  let saved := NotesScript.notes_data [sample_note 1 42] "2024-01-01 12:00:00" in
  loads_only "contents of exam_notes.json" saved "contents of exam_notes.json" = inr saved /\
  fst (GenerateNotes.validate_and_create_notes
         (loads_only "contents of exam_notes.json" saved)
         no_str_as_int no_float_as_int "contents of exam_notes.json" []) = inr None.
Proof.
  split; [reflexivity|].
  rewrite (saved_file_is_refused
             (loads_only "contents of exam_notes.json"
                (NotesScript.notes_data [sample_note 1 42] "2024-01-01 12:00:00"))
             no_str_as_int no_float_as_int "contents of exam_notes.json" []
             [sample_note 1 42] "2024-01-01 12:00:00" eq_refl).
  reflexivity.
Defined.

(** X19: [get_assistant] of the question script returns the first
    assistant listed under the name "Study Q&A Assistant"; when the listing
    has none it raises [ValueError], and it lets a failure of the listing
    call through. *)
Theorem get_assistant_first_or_value_error
    (assistants : option (list Host.Assistant.t)) (w : Host.world) :
  match fst (QnAScript.get_assistant assistants w) with
  | inr a => exists listed, assistants = Some listed /\
                            first_such is_study_assistant listed a
  | inl e =>
      (assistants = None /\ e = Host.PyExn (APIError "assistants.list")) \/
      (exists listed, assistants = Some listed /\
                      Forall (fun a => ~ is_study_assistant a) listed /\
                      e = Host.ValueError
                            "Assistant not found. Please run 00_bootstrap.py first.")
  end.
Proof.
  unfold QnAScript.get_assistant, NotesScript.assistants_list, Host.bind, Host.send.
  destruct assistants as [listed|]; cbn [fst Host.ret Host.raise].
  - destruct (List.find _ listed) as [a|] eqn:Hfind; cbn [fst Host.ret Host.raise].
    + exists listed. split; [reflexivity|]. apply find_study_assistant. exact Hfind.
    + right. exists listed. split; [reflexivity|]. split; [|reflexivity].
      apply find_no_study_assistant. exact Hfind.
  - left. split; reflexivity.
Qed.

(** X20: a page reference of 0 counts as none. The markdown of a note has a
    page reference line exactly when [page_ref] is an integer other than 0,
    and the line then shows it; the dump written to the JSON file keeps
    [page_ref] as it is, 0 included. *)
Theorem page_zero_is_not_shown (note : GenerateNotes.Note) :
  ((exists chunk, chunk ∈ NotesScript.markdown_of_note note /\ is_page_line chunk) <->
   (exists z, GenerateNotes.page_ref note = Some z /\ z <> 0%Z)) /\
  (forall z, GenerateNotes.page_ref note = Some z -> z <> 0%Z ->
             ("**Page Reference:** " +:+ pretty z +:+ nl +:+ nl)
               ∈ NotesScript.markdown_of_note note) /\
  (forall z, GenerateNotes.page_ref note = Some z ->
             Host.model_dump note !! "page_ref" = Some (PyInt z)).
Proof.
  unfold NotesScript.markdown_of_note, Host.int_truthy, is_page_line.
  destruct note as [i h s [z|]]; cbn [GenerateNotes.page_ref GenerateNotes.id
    GenerateNotes.heading GenerateNotes.summary].
  - destruct (decide (z = 0%Z)) as [-> | Hz].
    + split; [split|split].
      * intros (chunk & Hin & rest & ->). exfalso. cbn [app] in Hin.
        repeat (apply elem_of_cons in Hin as [Hin|Hin]; [discriminate Hin|]).
        apply elem_of_nil in Hin. exact Hin.
      * intros (z & [= <-] & Hz). contradiction.
      * intros z [= <-] Hz. contradiction.
      * intros z [= <-]. reflexivity.
    + split; [split|split].
      * intros _. exists z. split; [reflexivity|exact Hz].
      * intros _. exists ("**Page Reference:** " +:+ pretty z +:+ nl +:+ nl).
        split; [|eexists; reflexivity].
        cbn [app]. do 2 (apply elem_of_cons; right). apply elem_of_cons. left. reflexivity.
      * intros z' [= <-] _.
        cbn [app]. do 2 (apply elem_of_cons; right). apply elem_of_cons. left. reflexivity.
      * intros z' [= <-]. reflexivity.
  - split; [split|split].
    + intros (chunk & Hin & rest & ->). exfalso. cbn [app] in Hin.
      repeat (apply elem_of_cons in Hin as [Hin|Hin]; [discriminate Hin|]).
      apply elem_of_nil in Hin. exact Hin.
    + intros (z & [=] & _).
    + intros z [=].
    + intros z [=].
Qed.

(** ** Concrete runs of the properties above *)

Lemma ask_question_returns_witness :
  fst (QnA.ask_question (script [] "completed") cited_thread one_file
         "asst_1" "What is a limit?" None []) =
    inr (Some "See chapter 2.",
         Some [ {| QnA.file_id := "file-1"; QnA.citation := "calculus_basics.pdf" |};
                {| QnA.file_id := "Unknown"; QnA.citation := "Unknown file" |};
                {| QnA.file_id := "file-9"; QnA.citation := "Unknown file (file-9)" |} ]) /\
  latest_text cited_thread = Some "See chapter 2.".
Proof.
  destruct (ask_question_returns (script [] "completed") cited_thread one_file 30
              "asst_1" "What is a limit?" None []) as (r & t' & Hrun & _ & Hanswer).
  assert (Hvalue : fst (QnA.ask_question (script [] "completed") cited_thread one_file
                          "asst_1" "What is a limit?" None []) =
                   inr (Some "See chapter 2.",
                        Some [ {| QnA.file_id := "file-1";
                                  QnA.citation := "calculus_basics.pdf" |};
                               {| QnA.file_id := "Unknown"; QnA.citation := "Unknown file" |};
                               {| QnA.file_id := "file-9";
                                  QnA.citation := "Unknown file (file-9)" |} ])).
  { vm_compute. reflexivity. }
  split; [exact Hvalue|].
  apply Hanswer. unfold QnA.ask_question in Hvalue. rewrite Hrun in Hvalue.
  cbn [fst] in Hvalue. injection Hvalue as ->. reflexivity.
Defined.

Lemma generate_notes_returns_witness :
  fst (GenerateNotes.generate_notes_with_assistant (script [] "completed") sample_thread
         "asst_1" None []) = inr (Some "latest message") /\
  latest_text sample_thread = Some "latest message".
Proof.
  destruct (generate_notes_returns (script [] "completed") sample_thread 30
              "asst_1" None []) as (r & t' & Hrun & Hvalue).
  assert (Hfst : fst (GenerateNotes.generate_notes_with_assistant (script [] "completed")
                        sample_thread "asst_1" None []) = inr (Some "latest message")).
  { vm_compute. reflexivity. }
  split; [exact Hfst|].
  apply Hvalue. unfold GenerateNotes.generate_notes_with_assistant in Hfst.
  rewrite Hrun in Hfst. cbn [fst] in Hfst. injection Hfst as ->. reflexivity.
Defined.


Lemma page_zero_is_not_shown_witness :
  GenerateNotes.page_ref (sample_note 1 42) = Some 42%Z /\ 42%Z <> 0%Z /\
  ("**Page Reference:** " +:+ pretty 42%Z +:+ nl +:+ nl)
    ∈ NotesScript.markdown_of_note (sample_note 1 42) /\
  Host.model_dump (sample_note 1 0) !! "page_ref" = Some (PyInt 0) /\
  ~ exists chunk, chunk ∈ NotesScript.markdown_of_note (sample_note 1 0) /\
                  is_page_line chunk.
Proof.
  assert (Hne : 42%Z <> 0%Z) by discriminate.
  split; [reflexivity|]. split; [exact Hne|].
  split; [exact (proj1 (proj2 (page_zero_is_not_shown (sample_note 1 42))) 42%Z eq_refl Hne)|].
  split; [exact (proj2 (proj2 (page_zero_is_not_shown (sample_note 1 0))) 0%Z eq_refl)|].
  intros Hline.
  destruct (proj1 (proj1 (page_zero_is_not_shown (sample_note 1 0))) Hline)
    as (z & Hz & Hnz).
  cbn in Hz. injection Hz as <-. apply Hnz. reflexivity.
Defined.

